(** * ParcelTrack: shipment tracking-number lifecycle and status engine

    A shallow embedding of [backend/src/services/trackingService.ts]
    ([TrackingService] and [LeadService.convertToShipment]) over a model of
    the relational store described by [backend/prisma/schema.prisma].

    - Dates are milliseconds since the epoch ([Z]).
    - Row identifiers ([@default(uuid())]) are drawn from a counter kept in
      the store, so that a fresh identifier never collides.
    - Every operation that touches the store is a function from the store
      to an outcome and a new store; [$transaction] discards the writes of
      a body that throws.
    - The random bytes handed to nanoid are an explicit stream.
    - The dates a query can carry are an interval kept with the store; its
      bounds are not in the repository.  A [Date] outside it, such as an
      invalid one, is rejected when the query is built, before any row is
      looked up.
    - A string longer than its [VarChar(n)] column is rejected by the store
      when the row is written.
    - The store is reachable and no string holds a NUL character. *)

From Stdlib Require Import ZArith List String Ascii Bool Arith Lia.
From Stdlib Require Import Permutation Sorted.
Import ListNotations.

Local Open Scope string_scope.
Local Open Scope list_scope.

Definition Date := Z.

(* ------------------------------------------------------------------ *)
(** ** Outcomes of effectful code *)

Inductive Error : Type :=
| PrismaValidationError       (* a required argument is missing or ill-typed *)
| P2000_ValueTooLong          (* the value is too long for the column's type *)
| P2002_UniqueConstraint      (* unique constraint failed *)
| P2003_ForeignKeyConstraint  (* foreign key constraint failed *)
| P2025_RecordNotFound        (* record to update not found *)
| LeadNotFound                (* Error('Lead not found') *)
| LeadAlreadyConverted        (* Error('Lead already converted') *)
| AllocationExhausted.        (* Error('Failed to generate unique tracking
                                 number after multiple attempts') *)

(** [Diverge] is the outcome of a run that was given too little fuel: the
    only unbounded loop is nanoid's rejection sampling. *)
Inductive outcome (A : Type) : Type :=
| Ok (a : A)
| Throw (e : Error)
| Diverge.

Arguments Ok {A} a.
Arguments Throw {A} e.
Arguments Diverge {A}.

Definition isOk {A} (o : outcome A) : bool :=
  match o with Ok _ => true | _ => false end.

(* ------------------------------------------------------------------ *)
(** ** nanoid's [customAlphabet]

    [customAlphabet(alphabet, size)] is [customRandom(alphabet, size, random)]:
    it draws [step] random bytes at a time, walks them from the last to the
    first, masks each one and appends [alphabet[byte & mask]] when that index
    is inside the alphabet, until the identifier has [size] characters. *)

Module Nanoid.

(** The bytes the system generator will deliver, in order. *)
Definition Rng := nat -> Z.

Definition rng_drop (n : nat) (r : Rng) : Rng := fun i => r (n + i)%nat.

(** [random(bytes)]: the next [n] bytes of the stream. *)
Definition getRandom (n : nat) (r : Rng) : list Z * Rng :=
  (map r (seq 0 n), rng_drop n r).

(** [Math.clz32] on a positive 32-bit integer. *)
Definition clz32 (x : Z) : Z :=
  if (x <=? 0)%Z then 32%Z else (31 - Z.log2 x)%Z.

(** [(2 << (31 - Math.clz32((alphabet.length - 1) | 1))) - 1] *)
Definition mask_of (alphabet : string) : Z :=
  (Z.shiftl 2 (31 - clz32 (Z.lor (Z.of_nat (String.length alphabet) - 1) 1)) - 1)%Z.

(** [Math.ceil((1.6 * mask * defaultSize) / alphabet.length)], computed on
    the exact rational [16 * mask * size / (10 * length)]. *)
Definition step_of (alphabet : string) (defaultSize : nat) : nat :=
  let num := (16 * mask_of alphabet * Z.of_nat defaultSize)%Z in
  let den := (10 * Z.of_nat (String.length alphabet))%Z in
  Z.to_nat ((num + den - 1) / den)%Z.

(** [alphabet[k] || '']: the empty string when [k] is out of range. *)
Definition pick (alphabet : string) (k : Z) : string :=
  if (k <? 0)%Z then EmptyString
  else match String.get (Z.to_nat k) alphabet with
       | Some c => String c EmptyString
       | None => EmptyString
       end.

(** The inner loop [while (i--) { id += ...; if (id.length >= size) return id }].
    [inl id] is the returned identifier, [inr id] the identifier built so
    far when the batch is used up. *)
Fixpoint scan (alphabet : string) (mask : Z) (size : nat)
         (bytes : list Z) (i : nat) (id : string) : string + string :=
  match i with
  | O => inr id
  | S i' =>
      let id' := (id ++ pick alphabet (Z.land (nth i' bytes 0%Z) mask))%string in
      if (size <=? String.length id')%nat then inl id'
      else scan alphabet mask size bytes i' id'
  end.

(** The outer [while (true)], one batch of [step] bytes per iteration. *)
Fixpoint customRandom (fuel : nat) (alphabet : string) (mask : Z) (step size : nat)
         (r : Rng) (id : string) : option (string * Rng) :=
  match fuel with
  | O => None
  | S fuel' =>
      let '(bytes, r') := getRandom step r in
      match scan alphabet mask size bytes step id with
      | inl id' => Some (id', r')
      | inr id' => customRandom fuel' alphabet mask step size r' id'
      end
  end.

Definition customAlphabet (alphabet : string) (size : nat)
           (fuel : nat) (r : Rng) : option (string * Rng) :=
  customRandom fuel alphabet (mask_of alphabet) (step_of alphabet size) size r "".

End Nanoid.

(* ------------------------------------------------------------------ *)
(** ** The data model ([schema.prisma]) *)

Inductive TrackingStatus : Type :=
| PENDING | PICKED_UP | IN_TRANSIT | OUT_FOR_DELIVERY | DELIVERED | EXCEPTION | RETURNED.

Definition TrackingStatus_eqb (a b : TrackingStatus) : bool :=
  match a, b with
  | PENDING, PENDING | PICKED_UP, PICKED_UP | IN_TRANSIT, IN_TRANSIT
  | OUT_FOR_DELIVERY, OUT_FOR_DELIVERY | DELIVERED, DELIVERED
  | EXCEPTION, EXCEPTION | RETURNED, RETURNED => true
  | _, _ => false
  end.

Module LeadStatus.
Inductive t : Type := new | contacted | qualified | converted | rejected.

Definition eqb (a b : t) : bool :=
  match a, b with
  | new, new | contacted, contacted | qualified, qualified
  | converted, converted | rejected, rejected => true
  | _, _ => false
  end.
End LeadStatus.

Module Shipment.
Record t : Type := mk {
  id : nat;
  trackingNumber : string;
  carrierTrackingNumber : option string;
  carrier : option string;
  status : TrackingStatus;
  estimatedDelivery : option Date;
  actualDelivery : option Date;
  createdAt : Date;
  updatedAt : Date;
  userId : option string
}.
End Shipment.

Module TrackingEvent.
Record t : Type := mk {
  id : nat;
  status : TrackingStatus;
  description : string;
  location : option string;
  timestamp : Date;
  createdAt : Date;
  shipmentId : nat
}.
End TrackingEvent.

(** A lead, with the columns the conversion reads or writes.  The key has the
    type [convertToShipment] declares for it ([bigint]). *)
Module Lead.
Record t : Type := mk {
  id : Z;
  status : LeadStatus.t;
  updatedAt : Date;
  clientId : option string;
  assignedTo : option string
}.
End Lead.

(** The store: the [users] keys, the three tables in insertion order, the
    next identifier, and the least and the greatest date a query may carry
    (a date outside is rejected before the query is run). *)
Record DB : Type := mkDB {
  users : list string;
  leads : list Lead.t;
  shipments : list Shipment.t;
  events : list TrackingEvent.t;
  nextId : nat;
  minDate : Date;
  maxDate : Date
}.

(* ------------------------------------------------------------------ *)
(** ** The store operations the services call (Prisma client) *)

Module Prisma.

(** A computation over the store. *)
Definition M (A : Type) : Type := DB -> outcome A * DB.

Definition ret {A} (a : A) : M A := fun db => (Ok a, db).

Definition throw {A} (e : Error) : M A := fun db => (Throw e, db).

Definition bind {A B} (m : M A) (f : A -> M B) : M B :=
  fun db =>
    match m db with
    | (Ok a, db') => f a db'
    | (Throw e, db') => (Throw e, db')
    | (Diverge, db') => (Diverge, db')
    end.

(** [prisma.$transaction(async (tx) => body)]: the writes of [body] are
    kept when it returns and discarded when it does not. *)
Definition transaction {A} (body : M A) : M A :=
  fun db =>
    match body db with
    | (Ok a, db') => (Ok a, db')
    | (Throw e, _) => (Throw e, db)
    | (Diverge, _) => (Diverge, db)
    end.

(** Replace the first row satisfying [p] by its image under [f]. *)
Fixpoint update_first {A} (p : A -> bool) (f : A -> A) (l : list A)
  : option (A * list A) :=
  match l with
  | [] => None
  | x :: l' =>
      if p x then Some (f x, f x :: l')
      else match update_first p f l' with
           | Some (y, l'') => Some (y, x :: l'')
           | None => None
           end
  end.

(** Insertion sort, greatest key first ([orderBy: { k: 'desc' }]).  Rows
    with equal keys keep their insertion order here; the store promises no
    order among them, and no property below relies on one. *)
Fixpoint insert_desc {A} (key : A -> Z) (x : A) (l : list A) : list A :=
  match l with
  | [] => [x]
  | y :: l' =>
      if (key y <=? key x)%Z then x :: y :: l'
      else y :: insert_desc key x l'
  end.

Definition sort_desc {A} (key : A -> Z) (l : list A) : list A :=
  fold_right (insert_desc key) [] l.

Definition has_tn (tn : string) (s : Shipment.t) : bool :=
  (Shipment.trackingNumber s =? tn)%string.

(** [shipment.findUnique({ where: { trackingNumber } })] *)
Definition shipment_findUnique (tn : string) (db : DB) : option Shipment.t :=
  find (has_tn tn) (shipments db).

(** The argument of [shipment.create] as the two callers build it.  The
    column [trackingNumber] has no default in the schema, the others
    default to [uuid()], [PENDING], [now()] or NULL. *)
Record ShipmentCreateInput : Type := {
  ci_trackingNumber : option string;
  ci_carrier : option string;
  ci_carrierTrackingNumber : option string;
  ci_estimatedDelivery : option Date;
  ci_userId : option string
}.

(** A date the query may carry. *)
Definition date_ok (db : DB) (d : Date) : bool :=
  (minDate db <=? d)%Z && (d <=? maxDate db)%Z.

Definition opt_date_ok (db : DB) (d : option Date) : bool :=
  match d with
  | Some t => date_ok db t
  | None => true
  end.

(** A value that fits a column of type [VarChar(n)]. *)
Definition fits (n : nat) (v : option string) : bool :=
  match v with
  | Some x => (String.length x <=? n)%nat
  | None => true
  end.

Definition user_exists (u : option string) (db : DB) : bool :=
  match u with
  | None => true
  | Some k => existsb (String.eqb k) (users db)
  end.

(** [shipment.create({ data })]: [carrier] is a [VarChar(100)]. *)
Definition shipment_create (now : Date) (data : ShipmentCreateInput) : M Shipment.t :=
  fun db =>
    match ci_trackingNumber data with
    | None => (Throw PrismaValidationError, db)
    | Some tn =>
        if negb (opt_date_ok db (ci_estimatedDelivery data))
        then (Throw PrismaValidationError, db)
        else if negb (fits 100 (ci_carrier data))
        then (Throw P2000_ValueTooLong, db)
        else
        match shipment_findUnique tn db with
        | Some _ => (Throw P2002_UniqueConstraint, db)
        | None =>
            if user_exists (ci_userId data) db then
              let s := {| Shipment.id := nextId db;
                          Shipment.trackingNumber := tn;
                          Shipment.carrierTrackingNumber := ci_carrierTrackingNumber data;
                          Shipment.carrier := ci_carrier data;
                          Shipment.status := PENDING;
                          Shipment.estimatedDelivery := ci_estimatedDelivery data;
                          Shipment.actualDelivery := None;
                          Shipment.createdAt := now;
                          Shipment.updatedAt := now;
                          Shipment.userId := ci_userId data |} in
              (Ok s, {| users := users db;
                        leads := leads db;
                        shipments := shipments db ++ [s];
                        events := events db;
                        nextId := S (nextId db);
                        minDate := minDate db; maxDate := maxDate db |})
            else (Throw P2003_ForeignKeyConstraint, db)
        end
    end.

(** The columns [updateShipmentStatus] writes: [status] always,
    [actualDelivery] only when the key is present. *)
Record ShipmentUpdateInput : Type := {
  ui_status : TrackingStatus;
  ui_actualDelivery : option Date
}.

Definition apply_update (now : Date) (data : ShipmentUpdateInput) (s : Shipment.t)
  : Shipment.t :=
  {| Shipment.id := Shipment.id s;
     Shipment.trackingNumber := Shipment.trackingNumber s;
     Shipment.carrierTrackingNumber := Shipment.carrierTrackingNumber s;
     Shipment.carrier := Shipment.carrier s;
     Shipment.status := ui_status data;
     Shipment.estimatedDelivery := Shipment.estimatedDelivery s;
     Shipment.actualDelivery :=
       match ui_actualDelivery data with
       | Some t => Some t
       | None => Shipment.actualDelivery s
       end;
     Shipment.createdAt := Shipment.createdAt s;
     Shipment.updatedAt := now;
     Shipment.userId := Shipment.userId s |}.

(** [shipment.update({ where: { trackingNumber }, data })] *)
Definition shipment_update (now : Date) (tn : string) (data : ShipmentUpdateInput)
  : M Shipment.t :=
  fun db =>
    if negb (opt_date_ok db (ui_actualDelivery data))
    then (Throw PrismaValidationError, db)
    else
    match update_first (has_tn tn) (apply_update now data) (shipments db) with
    | None => (Throw P2025_RecordNotFound, db)
    | Some (s, rows) =>
        (Ok s, {| users := users db;
                  leads := leads db;
                  shipments := rows;
                  events := events db;
                  nextId := nextId db;
                  minDate := minDate db; maxDate := maxDate db |})
    end.

Record TrackingEventCreateInput : Type := {
  ei_shipmentId : nat;
  ei_status : TrackingStatus;
  ei_description : string;
  ei_location : option string;
  ei_timestamp : Date
}.

Definition shipment_id_exists (i : nat) (db : DB) : bool :=
  existsb (fun s => Nat.eqb (Shipment.id s) i) (shipments db).

(** [trackingEvent.create({ data })]: [location] is a [VarChar(200)]. *)
Definition trackingEvent_create (now : Date) (data : TrackingEventCreateInput)
  : M TrackingEvent.t :=
  fun db =>
    if negb (date_ok db (ei_timestamp data))
    then (Throw PrismaValidationError, db)
    else if negb (fits 200 (ei_location data))
    then (Throw P2000_ValueTooLong, db)
    else
    if shipment_id_exists (ei_shipmentId data) db then
      let e := {| TrackingEvent.id := nextId db;
                  TrackingEvent.status := ei_status data;
                  TrackingEvent.description := ei_description data;
                  TrackingEvent.location := ei_location data;
                  TrackingEvent.timestamp := ei_timestamp data;
                  TrackingEvent.createdAt := now;
                  TrackingEvent.shipmentId := ei_shipmentId data |} in
      (Ok e, {| users := users db;
                leads := leads db;
                shipments := shipments db;
                events := events db ++ [e];
                nextId := S (nextId db);
                minDate := minDate db; maxDate := maxDate db |})
    else (Throw P2003_ForeignKeyConstraint, db).

(** [include: { events: { orderBy: { timestamp: 'desc' } } }] *)
Definition events_of (shipmentId : nat) (db : DB) : list TrackingEvent.t :=
  sort_desc TrackingEvent.timestamp
    (filter (fun e => Nat.eqb (TrackingEvent.shipmentId e) shipmentId) (events db)).

Definition has_lead_id (i : Z) (l : Lead.t) : bool := (Lead.id l =? i)%Z.

(** [lead.findUnique({ where: { id } })].  The service declares its
    [leadId] a [bigint] and the schema declares [Lead.id] a [String]; here
    the two are one type, the reading under which the lookup can find a
    lead.  (A client that checks the argument against the schema rejects a
    [bigint] in the lookup itself: the call then throws before either guard,
    and the store is unchanged as well.) *)
Definition lead_findUnique (i : Z) (db : DB) : option Lead.t :=
  find (has_lead_id i) (leads db).

Definition set_lead_status (now : Date) (st : LeadStatus.t) (l : Lead.t) : Lead.t :=
  {| Lead.id := Lead.id l;
     Lead.status := st;
     Lead.updatedAt := now;
     Lead.clientId := Lead.clientId l;
     Lead.assignedTo := Lead.assignedTo l |}.

(** [lead.update({ where: { id }, data: { status } })] *)
Definition lead_update (now : Date) (i : Z) (st : LeadStatus.t) : M Lead.t :=
  fun db =>
    match update_first (has_lead_id i) (set_lead_status now st) (leads db) with
    | None => (Throw P2025_RecordNotFound, db)
    | Some (l, rows) =>
        (Ok l, {| users := users db;
                  leads := rows;
                  shipments := shipments db;
                  events := events db;
                  nextId := nextId db;
                  minDate := minDate db; maxDate := maxDate db |})
    end.

(** [skip] and [take] of [findMany].  A negative [skip] is rejected; a
    negative [take] counts from the end of the ordered rows. *)
Definition paginate {A} (skip take : Z) (rows : list A) : outcome (list A) :=
  if (skip <? 0)%Z then Throw PrismaValidationError
  else if (0 <=? take)%Z then
    Ok (firstn (Z.to_nat take) (skipn (Z.to_nat skip) rows))
  else
    Ok (rev (firstn (Z.to_nat (- take)) (skipn (Z.to_nat skip) (rev rows)))).

End Prisma.


(* ------------------------------------------------------------------ *)
(** ** [TrackingService] *)

(** The value of a JavaScript arithmetic expression over integers. *)
Inductive JsNumber : Type :=
| Num (z : Z)
| Infinity
| NaN.

(** [Math.ceil(a / b)] for integers [a >= 0] and [b]; the quotient of
    doubles is exact far beyond any row count. *)
Definition Math_ceil_div (a b : Z) : JsNumber :=
  if (b =? 0)%Z then (if (a =? 0)%Z then NaN else Infinity)
  else Num (- ((- a) / b))%Z.

Module TrackingService.

Import Prisma.

Definition alphabet : string := "0123456789ABCDEFGHJKLMNPQRSTUVWXYZ".

(** [const generateTrackingNumber = customAlphabet(alphabet, 12)] *)
Definition generateTrackingNumber : nat -> Nanoid.Rng -> option (string * Nanoid.Rng) :=
  Nanoid.customAlphabet alphabet 12.

Definition MAX_ATTEMPTS : nat := 10.

(** The [do { ... } while (exists)] loop of [generateUniqueTrackingNumber],
    from a given value of [attempts].  [fuel] bounds the iterations of the
    model, [gen_fuel] the batches of one nanoid call.  Besides the outcome it
    returns the final value of [attempts] and the generator. *)
Fixpoint allocate (fuel gen_fuel attempts : nat) (r : Nanoid.Rng) (db : DB)
  : outcome string * nat * Nanoid.Rng :=
  match fuel with
  | O => (Diverge, attempts, r)
  | S fuel' =>
      if (MAX_ATTEMPTS <=? attempts)%nat then (Throw AllocationExhausted, attempts, r)
      else
        match generateTrackingNumber gen_fuel r with
        | None => (Diverge, attempts, r)
        | Some (trackingNumber, r') =>
            let exists_ :=
              match shipment_findUnique trackingNumber db with
              | Some _ => true
              | None => false
              end in
            if exists_ then allocate fuel' gen_fuel (S attempts) r' db
            else (Ok trackingNumber, S attempts, r')
        end
  end.

Definition generateUniqueTrackingNumber (fuel : nat) (r : Nanoid.Rng) (db : DB)
  : outcome string * Nanoid.Rng :=
  let '(o, _, r') := allocate fuel fuel 0 r db in (o, r').

Record CreateShipmentData : Type := {
  cs_userId : option string;
  cs_carrier : option string;
  cs_carrierTrackingNumber : option string;
  cs_estimatedDelivery : option Date
}.

Definition createShipment (fuel : nat) (now : Date) (data : CreateShipmentData)
           (r : Nanoid.Rng) (db : DB) : outcome Shipment.t * Nanoid.Rng * DB :=
  match generateUniqueTrackingNumber fuel r db with
  | (Ok trackingNumber, r') =>
      let '(o, db') :=
        shipment_create now
          {| ci_trackingNumber := Some trackingNumber;
             ci_carrier := cs_carrier data;
             ci_carrierTrackingNumber := cs_carrierTrackingNumber data;
             ci_estimatedDelivery := cs_estimatedDelivery data;
             ci_userId := cs_userId data |} db in
      (o, r', db')
  | (Throw e, r') => (Throw e, r', db)
  | (Diverge, r') => (Diverge, r', db)
  end.

(** [getShipment]: [None] is the [null] of [findUnique]. *)
Definition getShipment (trackingNumber : string) (db : DB)
  : option (Shipment.t * list TrackingEvent.t) :=
  match shipment_findUnique trackingNumber db with
  | Some s => Some (s, events_of (Shipment.id s) db)
  | None => None
  end.

Record UpdateStatusData : Type := {
  us_description : string;
  us_location : option string;
  us_timestamp : option Date
}.

(** [data.timestamp || new Date()]: a [Date] object is always truthy. *)
Definition effective_timestamp (now : Date) (data : UpdateStatusData) : Date :=
  match us_timestamp data with
  | Some t => t
  | None => now
  end.

Definition updateShipmentStatus (now : Date) (trackingNumber : string)
           (status : TrackingStatus) (data : UpdateStatusData) : M Shipment.t :=
  let timestamp := effective_timestamp now data in
  transaction
    (bind (shipment_update now trackingNumber
             {| ui_status := status;
                ui_actualDelivery :=
                  if TrackingStatus_eqb status DELIVERED then Some timestamp else None |})
       (fun shipment =>
          bind (trackingEvent_create now
                  {| ei_shipmentId := Shipment.id shipment;
                     ei_status := status;
                     ei_description := us_description data;
                     ei_location := us_location data;
                     ei_timestamp := timestamp |})
            (fun _ => ret shipment))).

Record ListParams : Type := {
  lp_userId : option string;
  lp_status : option TrackingStatus;
  lp_page : option Z;
  lp_limit : option Z
}.

Record Pagination : Type := {
  total : Z;
  page : Z;
  limit : Z;
  totalPages : JsNumber
}.

Record ListResult : Type := {
  lr_shipments : list (Shipment.t * list TrackingEvent.t);
  lr_pagination : Pagination
}.

(** The [where] object: a key is present only when its value is truthy, and
    the empty string is not. *)
Definition where_userId (userId : option string) : option string :=
  match userId with
  | Some u => if (u =? "")%string then None else Some u
  | None => None
  end.

Definition matches (userId : option string) (status : option TrackingStatus)
           (s : Shipment.t) : bool :=
  (match where_userId userId with
   | Some u => match Shipment.userId s with
               | Some v => (v =? u)%string
               | None => false
               end
   | None => true
   end)
  &&
  (match status with
   | Some st => TrackingStatus_eqb (Shipment.status s) st
   | None => true
   end).

Definition with_latest_event (db : DB) (s : Shipment.t)
  : Shipment.t * list TrackingEvent.t :=
  (s, firstn 1 (events_of (Shipment.id s) db)).

Definition listShipments (params : ListParams) (db : DB) : outcome ListResult :=
  let page := match lp_page params with Some p => p | None => 1%Z end in
  let limit := match lp_limit params with Some l => l | None => 20%Z end in
  let matching := filter (matches (lp_userId params) (lp_status params)) (shipments db) in
  match paginate ((page - 1) * limit)%Z limit (sort_desc Shipment.createdAt matching) with
  | Ok rows =>
      let total := Z.of_nat (List.length matching) in
      Ok {| lr_shipments := map (with_latest_event db) rows;
            lr_pagination := {| total := total;
                                page := page;
                                limit := limit;
                                totalPages := Math_ceil_div total limit |} |}
  | Throw e => Throw e
  | Diverge => Diverge
  end.

End TrackingService.

(* ------------------------------------------------------------------ *)
(** ** [LeadService.convertToShipment] *)

Module LeadService.

Import Prisma.

Record ShipmentData : Type := {
  sd_carrier : option string;
  sd_carrierTrackingNumber : option string;
  sd_estimatedDelivery : option Date
}.

(** The reads before the transaction: [findUnique] on the client itself,
    then the two guards. *)
Definition convert_check (leadId : Z) (db : DB) : outcome Lead.t :=
  match lead_findUnique leadId db with
  | None => Throw LeadNotFound
  | Some lead =>
      if LeadStatus.eqb (Lead.status lead) LeadStatus.converted
      then Throw LeadAlreadyConverted
      else Ok lead
  end.

(** The transaction: [{ ...shipmentData, userId: lead.clientId?.toString() }]
    is the whole argument of [tx.shipment.create]; then the lead is marked. *)
Definition convert_commit (now : Date) (lead : Lead.t) (leadId : Z)
           (shipmentData : ShipmentData) : M Shipment.t :=
  transaction
    (bind (shipment_create now
             {| ci_trackingNumber := None;
                ci_carrier := sd_carrier shipmentData;
                ci_carrierTrackingNumber := sd_carrierTrackingNumber shipmentData;
                ci_estimatedDelivery := sd_estimatedDelivery shipmentData;
                ci_userId := Lead.clientId lead |})
       (fun shipment =>
          bind (lead_update now leadId LeadStatus.converted)
            (fun _ => ret shipment))).

Definition convertToShipment (now : Date) (leadId : Z) (shipmentData : ShipmentData)
  : M Shipment.t :=
  fun db =>
    match convert_check leadId db with
    | Ok lead => convert_commit now lead leadId shipmentData db
    | Throw e => (Throw e, db)
    | Diverge => (Diverge, db)
    end.

End LeadService.

(* ------------------------------------------------------------------ *)
(** ** Vocabulary of the properties *)

Definition chars (s : string) : list ascii := list_ascii_of_string s.

(** Every character of [s] is a character of [alphabet]. *)
Definition over (alphabet s : string) : Prop :=
  Forall (fun c => In c (chars alphabet)) (chars s).

(** The format of a tracking number: twelve characters of the alphabet. *)
Definition well_formed (tn : string) : Prop :=
  String.length tn = 12 /\ over TrackingService.alphabet tn.

(** The tracking number is carried by a stored shipment. *)
Definition taken (db : DB) (tn : string) : Prop :=
  Prisma.shipment_findUnique tn db <> None.

(** The first [k] values successive calls of [generateTrackingNumber]
    return, and the generator they leave. *)
Fixpoint candidates (gen_fuel k : nat) (r : Nanoid.Rng)
  : option (list string * Nanoid.Rng) :=
  match k with
  | O => Some ([], r)
  | S k' =>
      match TrackingService.generateTrackingNumber gen_fuel r with
      | None => None
      | Some (tn, r1) =>
          match candidates gen_fuel k' r1 with
          | None => None
          | Some (l, r2) => Some (tn :: l, r2)
          end
      end
  end.

(** A byte that indexes the alphabet once masked. *)
Definition accepted (b : Z) : Prop :=
  (Z.land b (Nanoid.mask_of TrackingService.alphabet)
   < Z.of_nat (String.length TrackingService.alphabet))%Z.

(** The generator keeps delivering accepted bytes: after any position there
    is another one. *)
Definition productive (r : Nanoid.Rng) : Prop :=
  forall i, exists j, i <= j /\ accepted (r j).

(** The order of [orderBy: { k: 'desc' }]: no row is followed by a row with a
    greater key. *)
Definition newer_first {A} (key : A -> Z) (a b : A) : Prop := (key b <= key a)%Z.

(** The event [updateShipmentStatus] inserts for the shipment [s]. *)
Definition status_event (now : Date) (st : TrackingStatus)
           (data : TrackingService.UpdateStatusData) (s : Shipment.t) (db : DB)
  : TrackingEvent.t :=
  {| TrackingEvent.id := nextId db;
     TrackingEvent.status := st;
     TrackingEvent.description := TrackingService.us_description data;
     TrackingEvent.location := TrackingService.us_location data;
     TrackingEvent.timestamp := TrackingService.effective_timestamp now data;
     TrackingEvent.createdAt := now;
     TrackingEvent.shipmentId := Shipment.id s |}.

(** The row [updateShipmentStatus] writes in place of [s]. *)
Definition status_row (now : Date) (st : TrackingStatus)
           (data : TrackingService.UpdateStatusData) (s : Shipment.t) : Shipment.t :=
  Prisma.apply_update now
    {| Prisma.ui_status := st;
       Prisma.ui_actualDelivery :=
         if TrackingStatus_eqb st DELIVERED
         then Some (TrackingService.effective_timestamp now data) else None |} s.

(** The data of an update both queries can carry: its effective timestamp
    is a date of the store and its location fits the column. *)
Definition status_data_ok (now : Date) (data : TrackingService.UpdateStatusData)
           (db : DB) : bool :=
  Prisma.date_ok db (TrackingService.effective_timestamp now data)
  && Prisma.fits 200 (TrackingService.us_location data).

(** The shipments [listShipments] selects, in the order of the table. *)
Definition matching (params : TrackingService.ListParams) (db : DB) : list Shipment.t :=
  filter (TrackingService.matches (TrackingService.lp_userId params)
            (TrackingService.lp_status params)) (shipments db).

(** One call of the services, with its arguments. *)
Inductive call : Type :=
| CreateShipment (fuel : nat) (now : Date)
    (data : TrackingService.CreateShipmentData) (r : Nanoid.Rng)
| UpdateShipmentStatus (now : Date) (trackingNumber : string)
    (status : TrackingStatus) (data : TrackingService.UpdateStatusData)
| ConvertToShipment (now : Date) (leadId : Z) (shipmentData : LeadService.ShipmentData).

(** The store a call leaves. *)
Definition run_call (c : call) (db : DB) : DB :=
  match c with
  | CreateShipment fuel now data r =>
      snd (TrackingService.createShipment fuel now data r db)
  | UpdateShipmentStatus now tn st data =>
      snd (TrackingService.updateShipmentStatus now tn st data db)
  | ConvertToShipment now leadId data =>
      snd (LeadService.convertToShipment now leadId data db)
  end.

(** The shipments whose status is DELIVERED. *)
Definition delivered_ids (db : DB) : list nat :=
  map Shipment.id
    (filter (fun s => TrackingStatus_eqb (Shipment.status s) DELIVERED) (shipments db)).

(** A history of calls, run from [db]; [seen] collects the shipments found
    DELIVERED after some call, that is, those that reached DELIVERED at least
    once. *)
Fixpoint run (cs : list call) (db : DB) (seen : list nat) : DB * list nat :=
  match cs with
  | [] => (db, seen)
  | c :: cs' =>
      let db' := run_call c db in
      run cs' db' (seen ++ delivered_ids db')
  end.




(* ------------------------------------------------------------------ *)
(** ** [LeadService.getStats] *)

Record LeadStats : Type := {
  totalLeads : nat;
  newLeads : nat;
  convertedLeads : nat
}.

(** [lead.count({ where: { status } })], and [lead.count()] without
    [where]. *)
Definition lead_count (status : option LeadStatus.t) (db : DB) : nat :=
  List.length
    (filter (fun l => match status with
                      | Some st => LeadStatus.eqb (Lead.status l) st
                      | None => true
                      end) (leads db)).

Definition getStats (db : DB) : LeadStats :=
  {| totalLeads := lead_count None db;
     newLeads := lead_count (Some LeadStatus.new) db;
     convertedLeads := lead_count (Some LeadStatus.converted) db |}.

(* ------------------------------------------------------------------ *)
(** ** The handlers of [routes/tracking.ts]

    A handler is run on a request that passed [validateRequest]; it answers
    with a status code and a JSON body ([res.json] alone answers 200), and
    does not answer when the service call does not return. *)

Module TrackingRoutes.

Inductive Body : Type :=
| ShipmentJson (s : Shipment.t)
| ShipmentWithEventsJson (s : Shipment.t) (events : list TrackingEvent.t)
| ErrorJson (error : string).

Record Response : Type := {
  statusCode : nat;
  body : Body
}.

(** The truthiness of an optional string of the request. *)
Definition truthy (v : option string) : option string :=
  match v with
  | Some x => if (x =? "")%string then None else Some x
  | None => None
  end.

Section Handlers.

(** [new Date(s)] on a string that passed [z.string().datetime()]. *)
Variable Date_parse : string -> Date.

Record CreateBody : Type := {
  cb_userId : option string;
  cb_carrier : option string;
  cb_carrierTrackingNumber : option string;
  cb_estimatedDelivery : option string
}.

(** [router.post('/shipments', ...)] *)
Definition post_shipments (fuel : nat) (now : Date) (req : CreateBody)
           (r : Nanoid.Rng) (db : DB) : option Response * Nanoid.Rng * DB :=
  match TrackingService.createShipment fuel now
          {| TrackingService.cs_userId := cb_userId req;
             TrackingService.cs_carrier := cb_carrier req;
             TrackingService.cs_carrierTrackingNumber := cb_carrierTrackingNumber req;
             TrackingService.cs_estimatedDelivery :=
               option_map Date_parse (truthy (cb_estimatedDelivery req)) |} r db with
  | (Ok shipment, r', db') =>
      (Some {| statusCode := 200; body := ShipmentJson shipment |}, r', db')
  | (Throw _, r', db') =>
      (Some {| statusCode := 500; body := ErrorJson "Failed to create shipment" |}, r', db')
  | (Diverge, r', db') => (None, r', db')
  end.

(** [router.get('/shipments/:trackingNumber', ...)] *)
Definition get_shipment (trackingNumber : string) (db : DB) : Response :=
  match TrackingService.getShipment trackingNumber db with
  | None => {| statusCode := 404; body := ErrorJson "Shipment not found" |}
  | Some (shipment, events) =>
      {| statusCode := 200; body := ShipmentWithEventsJson shipment events |}
  end.

Record StatusBody : Type := {
  sb_status : TrackingStatus;
  sb_description : string;
  sb_location : option string;
  sb_timestamp : option string
}.

(** [router.post('/shipments/:trackingNumber/status', ...)] *)
Definition post_shipment_status (now : Date) (trackingNumber : string)
           (req : StatusBody) (db : DB) : option Response * DB :=
  match TrackingService.updateShipmentStatus now trackingNumber (sb_status req)
          {| TrackingService.us_description := sb_description req;
             TrackingService.us_location := sb_location req;
             TrackingService.us_timestamp :=
               option_map Date_parse (truthy (sb_timestamp req)) |} db with
  | (Ok shipment, db') =>
      (Some {| statusCode := 200; body := ShipmentJson shipment |}, db')
  | (Throw _, db') =>
      (Some {| statusCode := 500; body := ErrorJson "Failed to update shipment status" |},
       db')
  | (Diverge, db') => (None, db')
  end.

End Handlers.

End TrackingRoutes.

(* ------------------------------------------------------------------ *)
(** ** Vocabulary of the properties of whole histories *)

(** The store a sequence of calls leaves. *)
Definition run_calls (cs : list call) (db : DB) : DB :=
  fold_left (fun d c => run_call c d) cs db.

(** The events of a shipment, in the order of their insertion. *)
Definition log_of (shipmentId : nat) (db : DB) : list TrackingEvent.t :=
  filter (fun e => Nat.eqb (TrackingEvent.shipmentId e) shipmentId) (events db).

(** The columns of a shipment no service call writes after the creation. *)
Definition fixed_columns (s : Shipment.t)
  : nat * string * option string * option string * option Date * Date * option string :=
  (Shipment.id s, Shipment.trackingNumber s, Shipment.carrierTrackingNumber s,
   Shipment.carrier s, Shipment.estimatedDelivery s, Shipment.createdAt s,
   Shipment.userId s).

(** What the services maintain of the two tracking tables. *)
Definition Consistent (db : DB) : Prop :=
  NoDup (map Shipment.id (shipments db)) /\
  NoDup (map Shipment.trackingNumber (shipments db)) /\
  (forall s, In s (shipments db) -> Shipment.id s < nextId db) /\
  (forall e, In e (events db) ->
             exists s, In s (shipments db) /\ Shipment.id s = TrackingEvent.shipmentId e) /\
  (forall s, In s (shipments db) -> well_formed (Shipment.trackingNumber s)) /\
  (forall s, In s (shipments db) ->
             Shipment.status s
             = last (map TrackingEvent.status (log_of (Shipment.id s) db)) PENDING).

(** The rows of page [p] of a listing with the given filters and limit. *)
Definition page_rows (userId : option string) (status : option TrackingStatus)
           (limit : Z) (db : DB) (p : nat) : list (Shipment.t * list TrackingEvent.t) :=
  match TrackingService.listShipments
          {| TrackingService.lp_userId := userId;
             TrackingService.lp_status := status;
             TrackingService.lp_page := Some (Z.of_nat p);
             TrackingService.lp_limit := Some limit |} db with
  | Ok res => TrackingService.lr_shipments res
  | _ => []
  end.

(** The pages 1 to [n], one after the other. *)
Definition all_pages (userId : option string) (status : option TrackingStatus)
           (limit : Z) (db : DB) (n : nat) : list (Shipment.t * list TrackingEvent.t) :=
  flat_map (page_rows userId status limit db) (seq 1 n).

(* ------------------------------------------------------------------ *)
(** ** Sample stores and generators *)

(** The first and the last millisecond of the years an RFC 3339 date can
    name, 0000 to 9999. *)
Definition year_0000 : Date := (-62167219200000)%Z.

Definition year_9999 : Date := 253402300799999%Z.

Definition db_empty : DB :=
  {| users := ["u1"]; leads := []; shipments := []; events := []; nextId := 0;
     minDate := year_0000; maxDate := year_9999 |}.

(** The generator that delivers the bytes 0, 1, 2, ... *)
Definition rng_counting : Nanoid.Rng := fun i => Z.of_nat i.

(** The generator that only delivers zero bytes: every candidate is the
    same. *)
Definition rng_zero : Nanoid.Rng := fun _ => 0%Z.

Definition no_data : TrackingService.CreateShipmentData :=
  {| TrackingService.cs_userId := None;
     TrackingService.cs_carrier := None;
     TrackingService.cs_carrierTrackingNumber := None;
     TrackingService.cs_estimatedDelivery := None |}.

(** The store after one shipment was created from [rng_zero]. *)
Definition db_zero : DB :=
  snd (TrackingService.createShipment 11 1000%Z no_data rng_zero db_empty).

Definition tn_zero : string := "000000000000".

Definition departed (t : Date) : TrackingService.UpdateStatusData :=
  {| TrackingService.us_description := "Departed facility";
     TrackingService.us_location := Some "Springfield";
     TrackingService.us_timestamp := Some t |}.

Definition front_door (t : option Date) : TrackingService.UpdateStatusData :=
  {| TrackingService.us_description := "Left at front door";
     TrackingService.us_location := Some "Springfield";
     TrackingService.us_timestamp := t |}.

(** [db_zero] after its shipment was reported in transit at time 100. *)
Definition db_transit : DB :=
  snd (TrackingService.updateShipmentStatus 2000%Z tn_zero IN_TRANSIT (departed 100%Z) db_zero).

(** [db_transit] after a delivery dated 50, before the transit event. *)
Definition db_late : DB :=
  snd (TrackingService.updateShipmentStatus 3000%Z tn_zero DELIVERED
         (front_door (Some 50%Z)) db_transit).

(** [db_transit] after a delivery dated 200. *)
Definition db_delivered : DB :=
  snd (TrackingService.updateShipmentStatus 3000%Z tn_zero DELIVERED
         (front_door (Some 200%Z)) db_transit).

Definition row_delivered : Shipment.t :=
  Shipment.mk 0 tn_zero None None DELIVERED None (Some 200%Z) 1000%Z 3000%Z None.

Definition returned : TrackingService.UpdateStatusData :=
  {| TrackingService.us_description := "Returned to sender";
     TrackingService.us_location := None;
     TrackingService.us_timestamp := None |}.


(** The [i]-th sample shipment: created at [1000 + i], in transit for
    [i < 12] and delivered otherwise; every third one belongs to user u1. *)
Definition sample_shipment (i : nat) : Shipment.t :=
  {| Shipment.id := i;
     Shipment.trackingNumber :=
       (Nanoid.pick TrackingService.alphabet (Z.of_nat i) ++ "00000000000")%string;
     Shipment.carrierTrackingNumber := None;
     Shipment.carrier := Some "DHL";
     Shipment.status := if (i <? 12)%nat then IN_TRANSIT else DELIVERED;
     Shipment.estimatedDelivery := None;
     Shipment.actualDelivery := if (i <? 12)%nat then None else Some 5000%Z;
     Shipment.createdAt := (1000 + Z.of_nat i)%Z;
     Shipment.updatedAt := 5000%Z;
     Shipment.userId := if (i mod 3 =? 0)%nat then Some "u1" else None |}.

(** Fourteen shipments, twelve of them in transit. *)
Definition db_twelve : DB :=
  {| users := ["u1"]; leads := [];
     shipments := map sample_shipment (seq 0 14);
     events := []; nextId := 14;
     minDate := year_0000; maxDate := year_9999 |}.

Definition in_transit_page_2 : TrackingService.ListParams :=
  {| TrackingService.lp_userId := None;
     TrackingService.lp_status := Some IN_TRANSIT;
     TrackingService.lp_page := Some 2%Z;
     TrackingService.lp_limit := Some 5%Z |}.

Definition lead_new : Lead.t :=
  {| Lead.id := 7%Z; Lead.status := LeadStatus.new; Lead.updatedAt := 500%Z;
     Lead.clientId := Some "u1"; Lead.assignedTo := None |}.

Definition lead_converted : Lead.t :=
  {| Lead.id := 8%Z; Lead.status := LeadStatus.converted; Lead.updatedAt := 600%Z;
     Lead.clientId := Some "u1"; Lead.assignedTo := None |}.

(** A store with an open lead and a converted one, and no shipment. *)
Definition db_leads : DB :=
  {| users := ["u1"]; leads := [lead_new; lead_converted];
     shipments := []; events := []; nextId := 0;
     minDate := year_0000; maxDate := year_9999 |}.

Definition dhl : LeadService.ShipmentData :=
  {| LeadService.sd_carrier := Some "DHL";
     LeadService.sd_carrierTrackingNumber := Some "JD0146";
     LeadService.sd_estimatedDelivery := Some 90000%Z |}.

(** The argument [{}]. *)
Definition no_shipment_data : LeadService.ShipmentData :=
  {| LeadService.sd_carrier := None;
     LeadService.sd_carrierTrackingNumber := None;
     LeadService.sd_estimatedDelivery := None |}.

(** Two shipments are created and a conversion is attempted; the first
    shipment is delivered, returned, and delivered again. *)
Definition history : list call :=
  [ CreateShipment 11 1000%Z no_data rng_zero;
    CreateShipment 11 1500%Z no_data rng_counting;
    ConvertToShipment 1800%Z 7%Z dhl;
    UpdateShipmentStatus 2000%Z tn_zero DELIVERED (front_door None);
    UpdateShipmentStatus 4000%Z tn_zero RETURNED returned;
    UpdateShipmentStatus 5000%Z tn_zero DELIVERED (front_door (Some 4500%Z)) ].

(** The first event [history] inserts, and the first shipment as [history]
    leaves it. *)
Definition event_delivered : TrackingEvent.t :=
  TrackingEvent.mk 2 DELIVERED "Left at front door" (Some "Springfield")
    2000%Z 2000%Z 0.

Definition row_final : Shipment.t :=
  Shipment.mk 0 tn_zero None None DELIVERED None (Some 4500%Z) 1000%Z 5000%Z None.


(** The listing of the store [history] leaves, without filters, and the
    last event [history] inserts. *)
Definition no_filter : TrackingService.ListParams :=
  {| TrackingService.lp_userId := None;
     TrackingService.lp_status := None;
     TrackingService.lp_page := None;
     TrackingService.lp_limit := None |}.

Definition event_last : TrackingEvent.t :=
  TrackingEvent.mk 4 DELIVERED "Left at front door" (Some "Springfield")
    4500%Z 5000%Z 0.

Definition listing_final : TrackingService.ListResult :=
  {| TrackingService.lr_shipments :=
       [ (Shipment.mk 1 "ZYXWVUTSRQPN" None None PENDING None None 1500%Z 1500%Z None, []);
         (row_final, [event_last]) ];
     TrackingService.lr_pagination :=
       {| TrackingService.total := 2%Z;
          TrackingService.page := 1%Z;
          TrackingService.limit := 20%Z;
          TrackingService.totalPages := Num 1 |} |}.

(** A request to create a shipment, and a date parser for it. *)
Definition create_request : TrackingRoutes.CreateBody :=
  {| TrackingRoutes.cb_userId := Some "u1";
     TrackingRoutes.cb_carrier := Some "DHL";
     TrackingRoutes.cb_carrierTrackingNumber := None;
     TrackingRoutes.cb_estimatedDelivery := Some "1970-01-02T00:00:00Z" |}.

Definition parse_one_day : string -> Date := fun _ => 86400000%Z.

(** A string of [n] copies of [c]. *)
Fixpoint replicate (n : nat) (c : ascii) : string :=
  match n with
  | O => EmptyString
  | S n' => String c (replicate n' c)
  end.

(** A location of 201 characters, one more than its column holds. *)
Definition long_location : string := replicate 201 "x"%char.

Definition held (t : Date) : TrackingService.UpdateStatusData :=
  {| TrackingService.us_description := "Held at depot";
     TrackingService.us_location := Some long_location;
     TrackingService.us_timestamp := Some t |}.

(** [new Date(1e17)]: not a date. *)
Definition no_date : Date := 100000000000000000%Z.

(** A carrier name of 101 characters, one more than its column holds. *)
Definition long_carrier_data : TrackingService.CreateShipmentData :=
  {| TrackingService.cs_userId := None;
     TrackingService.cs_carrier := Some (replicate 101 "x"%char);
     TrackingService.cs_carrierTrackingNumber := None;
     TrackingService.cs_estimatedDelivery := None |}.

(** A store with two shipments, the second of them picked up: the store
    to update the first shipment in. *)
Definition tn_other : string := "ZYXWVUTSRQPN".

Definition picked_up : TrackingService.UpdateStatusData :=
  {| TrackingService.us_description := "Picked up";
     TrackingService.us_location := Some "Shelbyville";
     TrackingService.us_timestamp := Some 1600%Z |}.

Definition db_pair : DB :=
  run_calls [ CreateShipment 11 1000%Z no_data rng_zero;
              CreateShipment 11 1500%Z no_data rng_counting;
              UpdateShipmentStatus 1700%Z tn_other PICKED_UP picked_up ] db_empty.

Definition row_other : Shipment.t :=
  Shipment.mk 1 tn_other None None PICKED_UP None None 1500%Z 1700%Z None.

Definition event_other : TrackingEvent.t :=
  TrackingEvent.mk 2 PICKED_UP "Picked up" (Some "Shelbyville") 1600%Z 1700%Z 1.

Definition db_pair_transit : DB :=
  snd (TrackingService.updateShipmentStatus 2000%Z tn_zero IN_TRANSIT (departed 100%Z)
         db_pair).





(* ================================================================== *)
(** * Properties *)

(** ** Strings *)

Lemma length_app_string (s1 s2 : string) :
  String.length (s1 ++ s2)%string = String.length s1 + String.length s2.
Proof.
  induction s1 as [|c s1 IH]; simpl; [reflexivity | now rewrite IH].
Qed.

Lemma chars_app (s1 s2 : string) :
  chars (s1 ++ s2)%string = chars s1 ++ chars s2.
Proof.
  unfold chars. induction s1 as [|c s1 IH]; simpl; [reflexivity | now rewrite IH].
Qed.

Lemma get_in_chars (s : string) : forall n c,
  String.get n s = Some c -> In c (chars s).
Proof.
  induction s as [|a s IH]; intros n c H; simpl in H; [discriminate|].
  destruct n as [|n].
  - inversion H; subst. now left.
  - right. exact (IH n c H).
Qed.

Lemma get_lt_length (s : string) : forall n,
  n < String.length s -> exists c, String.get n s = Some c.
Proof.
  induction s as [|a s IH]; intros n H; simpl in H; [lia|].
  destruct n as [|n]; simpl.
  - now exists a.
  - apply IH. lia.
Qed.

(** ** nanoid *)

Lemma pick_length (alphabet : string) (k : Z) :
  String.length (Nanoid.pick alphabet k) <= 1.
Proof.
  unfold Nanoid.pick. destruct (k <? 0)%Z; simpl; [lia|].
  destruct (String.get (Z.to_nat k) alphabet); simpl; lia.
Qed.

Lemma pick_over (alphabet : string) (k : Z) :
  over alphabet (Nanoid.pick alphabet k).
Proof.
  unfold Nanoid.pick, over. destruct (k <? 0)%Z; simpl; [constructor|].
  destruct (String.get (Z.to_nat k) alphabet) as [c|] eqn:G; simpl; constructor.
  - eapply get_in_chars; eauto.
  - constructor.
Qed.

Lemma over_app (alphabet s1 s2 : string) :
  over alphabet s1 -> over alphabet s2 -> over alphabet (s1 ++ s2)%string.
Proof.
  unfold over. intros H1 H2. rewrite chars_app. apply Forall_app. now split.
Qed.

(** One batch either returns an identifier of exactly [size] characters or
    leaves a shorter one, and only ever appends characters of the alphabet. *)
Lemma scan_sound (alphabet : string) (mask : Z) (size : nat) (bytes : list Z) :
  forall i id,
    String.length id < size -> over alphabet id ->
    match Nanoid.scan alphabet mask size bytes i id with
    | inl id' => String.length id' = size /\ over alphabet id'
    | inr id' => String.length id' < size /\ over alphabet id'
    end.
Proof.
  induction i as [|i IH]; intros id Hlen Hov; simpl.
  - now split.
  - set (p := Nanoid.pick alphabet (Z.land (nth i bytes 0%Z) mask)).
    assert (Hp : String.length p <= 1) by apply pick_length.
    assert (Hl : String.length (id ++ p)%string = String.length id + String.length p)
      by apply length_app_string.
    assert (Ho : over alphabet (id ++ p)%string)
      by (apply over_app; [assumption | apply pick_over]).
    destruct (size <=? String.length (id ++ p)%string)%nat eqn:E.
    + apply Nat.leb_le in E. split; [lia | assumption].
    + apply Nat.leb_gt in E. apply IH; assumption.
Qed.

Lemma customRandom_sound (alphabet : string) (mask : Z) (step size : nat) :
  forall fuel r id id' r',
    String.length id < size -> over alphabet id ->
    Nanoid.customRandom fuel alphabet mask step size r id = Some (id', r') ->
    String.length id' = size /\ over alphabet id'.
Proof.
  induction fuel as [|fuel IH]; intros r id id' r' Hlen Hov H; simpl in H; [discriminate|].
  pose proof (scan_sound alphabet mask size (map r (seq 0 step)) step id Hlen Hov) as S.
  destruct (Nanoid.scan alphabet mask size (map r (seq 0 step)) step id) as [a|a].
  - inversion H; subst. exact S.
  - destruct S as [S1 S2]. eapply IH; eauto.
Qed.

Lemma generateTrackingNumber_well_formed (fuel : nat) (r r' : Nanoid.Rng) (tn : string) :
  TrackingService.generateTrackingNumber fuel r = Some (tn, r') -> well_formed tn.
Proof.
  unfold TrackingService.generateTrackingNumber, Nanoid.customAlphabet. intros H.
  eapply customRandom_sound in H; [exact H | simpl; lia | constructor].
Qed.

Lemma mask_of_alphabet : Nanoid.mask_of TrackingService.alphabet = 63%Z.
Proof. reflexivity. Qed.

Lemma step_of_alphabet : Nanoid.step_of TrackingService.alphabet 12 = 36.
Proof. reflexivity. Qed.

Lemma pick_accepted (b : Z) :
  accepted b ->
  String.length
    (Nanoid.pick TrackingService.alphabet
       (Z.land b (Nanoid.mask_of TrackingService.alphabet))) = 1.
Proof.
  unfold accepted, Nanoid.pick. rewrite mask_of_alphabet. intros H.
  assert (0 <= Z.land b 63)%Z by (apply Z.land_nonneg; right; lia).
  destruct (Z.land b 63 <? 0)%Z eqn:E; [apply Z.ltb_lt in E; lia|].
  destruct (get_lt_length TrackingService.alphabet (Z.to_nat (Z.land b 63))) as [c Hc];
    [lia|].
  now rewrite Hc.
Qed.

(** A batch in which the bytes about to be read are all accepted returns as
    soon as enough of them were read. *)
Lemma scan_productive (size : nat) (bytes : list Z) :
  forall i id,
    (forall j, j < i -> accepted (nth j bytes 0%Z)) ->
    String.length id < size -> size - String.length id <= i ->
    exists id',
      Nanoid.scan TrackingService.alphabet (Nanoid.mask_of TrackingService.alphabet)
        size bytes i id = inl id'.
Proof.
  induction i as [|i IH]; intros id Hacc Hlen Hi; [lia|]. simpl.
  set (p := Nanoid.pick _ _).
  assert (Hp : String.length p = 1) by (apply pick_accepted, Hacc; lia).
  assert (Hl : String.length (id ++ p)%string = String.length id + 1)
    by (rewrite length_app_string, Hp; reflexivity).
  destruct (size <=? String.length (id ++ p)%string)%nat eqn:E.
  - eauto.
  - apply Nat.leb_gt in E. apply IH; [intros; apply Hacc; lia | lia | lia].
Qed.

(** On a generator that only delivers accepted bytes, one batch is enough. *)
Lemma generateTrackingNumber_productive (fuel : nat) (r : Nanoid.Rng) :
  (forall i, accepted (r i)) ->
  exists tn,
    TrackingService.generateTrackingNumber (S fuel) r = Some (tn, Nanoid.rng_drop 36 r).
Proof.
  intros Hacc.
  unfold TrackingService.generateTrackingNumber, Nanoid.customAlphabet.
  rewrite step_of_alphabet. cbn [Nanoid.customRandom Nanoid.getRandom].
  destruct (scan_productive 12 (map r (seq 0 36)) 36 "") as [tn Htn].
  - intros j Hj.
    replace (nth j (map r (seq 0 36)) 0%Z) with (r j); [apply Hacc|].
    rewrite (nth_indep _ 0%Z (r 0)) by (rewrite length_map, length_seq; exact Hj).
    rewrite map_nth, seq_nth by exact Hj. reflexivity.
  - simpl; lia.
  - simpl; lia.
  - rewrite Htn. eauto.
Qed.

Lemma candidates_productive (fuel : nat) :
  forall k r, (forall i, accepted (r i)) -> candidates (S fuel) k r <> None.
Proof.
  induction k as [|k IH]; intros r Hacc; [discriminate|].
  cbn [candidates].
  destruct (generateTrackingNumber_productive fuel r Hacc) as [tn ->].
  specialize (IH (Nanoid.rng_drop 36 r) (fun i => Hacc (36 + i))).
  destruct (candidates (S fuel) k (Nanoid.rng_drop 36 r)) as [[l r2]|];
    [discriminate | contradiction].
Qed.

(** ** The allocator *)

(** What one run of the loop does, from any value of [attempts]. *)
Lemma allocate_spec (g : nat) (db : DB) :
  forall fuel a r,
    a <= TrackingService.MAX_ATTEMPTS ->
    TrackingService.MAX_ATTEMPTS - a < fuel ->
    exists o n cands r',
      TrackingService.allocate fuel g a r db = (o, n, r') /\
      a <= n <= TrackingService.MAX_ATTEMPTS /\
      candidates g (n - a) r = Some (cands, r') /\
      match o with
      | Ok tn =>
          exists used, cands = used ++ [tn] /\ Forall (taken db) used /\
                       Prisma.shipment_findUnique tn db = None
      | Throw e =>
          e = AllocationExhausted /\ n = TrackingService.MAX_ATTEMPTS /\
          Forall (taken db) cands
      | Diverge =>
          n < TrackingService.MAX_ATTEMPTS /\ Forall (taken db) cands /\
          TrackingService.generateTrackingNumber g r' = None
      end.
Proof.
  unfold TrackingService.MAX_ATTEMPTS.
  induction fuel as [|fuel IH]; intros a r Ha Hf; [lia|].
  cbn [TrackingService.allocate]. unfold TrackingService.MAX_ATTEMPTS.
  destruct (10 <=? a)%nat eqn:E.
  - apply Nat.leb_le in E. assert (a = 10) by lia. subst a.
    exists (Throw AllocationExhausted), 10, [], r.
    repeat split; try lia; constructor.
  - apply Nat.leb_gt in E.
    destruct (TrackingService.generateTrackingNumber g r) as [[tn r1]|] eqn:G.
    + destruct (Prisma.shipment_findUnique tn db) as [s|] eqn:F.
      * destruct (IH (S a) r1) as (o & n & cands & r' & H1 & H2 & H3 & H4); [lia | lia |].
        assert (Htk : taken db tn) by (unfold taken; rewrite F; discriminate).
        exists o, n, (tn :: cands), r'. split; [exact H1|]. split; [lia|]. split.
        { replace (n - a) with (S (n - S a)) by lia. cbn [candidates].
          rewrite G, H3. reflexivity. }
        destruct o as [t|e|].
        -- destruct H4 as (used & -> & Hu & Hn).
           exists (tn :: used). repeat split; [constructor; assumption | exact Hn].
        -- destruct H4 as (-> & -> & Hc). repeat split. constructor; assumption.
        -- destruct H4 as (Hn & Hc & Hg). repeat split; [lia | constructor; assumption | exact Hg].
      * exists (Ok tn), (S a), [tn], r1. split; [reflexivity|]. split; [lia|]. split.
        { replace (S a - a) with 1 by lia. cbn [candidates]. rewrite G. reflexivity. }
        exists []. repeat split; [constructor | exact F].
    + exists Diverge, a, [], r. split; [reflexivity|]. split; [lia|]. split.
      { replace (a - a) with 0 by lia. reflexivity. }
      repeat split; [lia | constructor | exact G].
Qed.

Lemma candidates_prefix (g : nat) :
  forall n m r l r',
    candidates g n r = Some (l, r') ->
    TrackingService.generateTrackingNumber g r' = None ->
    n < m -> candidates g m r = None.
Proof.
  induction n as [|n IH]; intros m r l r' H G Hm.
  - inversion H; subst. destruct m; [lia|]. cbn [candidates]. now rewrite G.
  - destruct m as [|m]; [lia|]. cbn [candidates] in *.
    destruct (TrackingService.generateTrackingNumber g r) as [[tn r1]|]; [|reflexivity].
    destruct (candidates g n r1) as [[l1 r2]|] eqn:C; [|discriminate].
    inversion H; subst. rewrite (IH m r1 l1 r' C G); [reflexivity | lia].
Qed.

Example allocate_first_candidate :
  fst (TrackingService.generateUniqueTrackingNumber 11 rng_counting db_zero)
  = Ok "ZYXWVUTSRQPN".
Proof. vm_compute. reflexivity. Qed.

Example allocate_all_collide :
  fst (TrackingService.allocate 50 50 0 rng_zero db_zero)
  = (Throw AllocationExhausted, 10).
Proof. vm_compute. reflexivity. Qed.

(** *** Nanoid returns on a generator that keeps delivering accepted bytes *)

Lemma productive_drop (n : nat) (r : Nanoid.Rng) :
  productive r -> productive (Nanoid.rng_drop n r).
Proof.
  intros P i. destruct (P (n + i)) as (j & Hj & Hacc).
  exists (j - n). split; [lia|]. unfold Nanoid.rng_drop.
  replace (n + (j - n)) with j by lia. exact Hacc.
Qed.

Lemma accepted_all_productive (r : Nanoid.Rng) :
  (forall i, accepted (r i)) -> productive r.
Proof. intros H i. exists i. split; [lia | apply H]. Qed.

Lemma customRandom_more_fuel (alphabet : string) (mask : Z) (step size : nat) :
  forall f f' r id x,
    Nanoid.customRandom f alphabet mask step size r id = Some x ->
    f <= f' ->
    Nanoid.customRandom f' alphabet mask step size r id = Some x.
Proof.
  induction f as [|f IH]; intros f' r id x H Hf; [discriminate|].
  destruct f' as [|f']; [lia|]. cbn [Nanoid.customRandom Nanoid.getRandom] in *.
  destruct (Nanoid.scan alphabet mask size (map r (seq 0 step)) step id) as [a|a];
    [exact H|].
  apply IH; [exact H | lia].
Qed.

(** A batch that does not return leaves an identifier that is still too
    short and at least as long as before, and longer when one of the bytes
    it read is accepted. *)
Lemma scan_grows (size : nat) (bytes : list Z) :
  forall i id id',
    Nanoid.scan TrackingService.alphabet (Nanoid.mask_of TrackingService.alphabet)
      size bytes i id = inr id' ->
    String.length id < size ->
    String.length id <= String.length id' < size /\
    (forall j, j < i -> accepted (nth j bytes 0%Z) ->
               String.length id < String.length id').
Proof.
  induction i as [|i IH]; intros id id' H Hlen; simpl in H.
  - injection H as <-. split; [lia|]. intros j Hj. lia.
  - set (p := Nanoid.pick TrackingService.alphabet
                (Z.land (nth i bytes 0%Z) (Nanoid.mask_of TrackingService.alphabet))) in *.
    pose proof (length_app_string id p) as Hl.
    destruct (size <=? String.length (id ++ p)%string)%nat eqn:E; [discriminate|].
    apply Nat.leb_gt in E.
    apply IH in H; [|exact E]. destruct H as [H1 H2]. split; [lia|].
    intros j Hj Hacc. destruct (Nat.eq_dec j i) as [->|Hne].
    + pose proof (pick_accepted _ Hacc) as Hp. fold p in Hp. lia.
    + assert (String.length (id ++ p)%string < String.length id')
        by (apply H2 with j; [lia | exact Hacc]).
      lia.
Qed.

Lemma nth_batch (r : Nanoid.Rng) (n j : nat) :
  j < n -> nth j (map r (seq 0 n)) 0%Z = r j.
Proof.
  intros Hj.
  rewrite (nth_indep _ 0%Z (r 0)) by (rewrite length_map, length_seq; exact Hj).
  rewrite map_nth, seq_nth by exact Hj. reflexivity.
Qed.

(** From an identifier that lacks at most [m] characters, with an accepted
    byte among the first [b + 1] batches, nanoid's loop returns. *)
Lemma customRandom_terminates :
  forall m b j id r,
    12 - String.length id <= m -> String.length id < 12 -> productive r ->
    accepted (r j) -> j < 36 * S b ->
    exists f id' r',
      Nanoid.customRandom f TrackingService.alphabet
        (Nanoid.mask_of TrackingService.alphabet) 36 12 r id = Some (id', r') /\
      productive r'.
Proof.
  induction m as [|m IHm]; [intros; lia|].
  induction b as [|b IHb]; intros j id r Hm Hlen P Hacc Hb;
    destruct (Nanoid.scan TrackingService.alphabet
                (Nanoid.mask_of TrackingService.alphabet) 12 (map r (seq 0 36)) 36 id)
      as [id1|id1] eqn:Sc.
  - exists 1, id1, (Nanoid.rng_drop 36 r).
    cbn [Nanoid.customRandom Nanoid.getRandom]. rewrite Sc.
    split; [reflexivity | now apply productive_drop].
  - destruct (scan_grows 12 _ 36 id id1 Sc Hlen) as [G1 G2].
    assert (Hg : String.length id < String.length id1).
    { apply (G2 j); [lia|]. rewrite nth_batch by lia. exact Hacc. }
    destruct (productive_drop 36 r P 0) as (j1 & _ & Hacc1).
    destruct (IHm j1 j1 id1 (Nanoid.rng_drop 36 r)) as (f & id' & r' & H & P');
      [lia | lia | now apply productive_drop | exact Hacc1 | lia |].
    exists (S f), id', r'. cbn [Nanoid.customRandom Nanoid.getRandom]. rewrite Sc.
    split; assumption.
  - exists 1, id1, (Nanoid.rng_drop 36 r).
    cbn [Nanoid.customRandom Nanoid.getRandom]. rewrite Sc.
    split; [reflexivity | now apply productive_drop].
  - destruct (scan_grows 12 _ 36 id id1 Sc Hlen) as [G1 G2].
    destruct (Nat.lt_ge_cases j 36) as [Hj|Hj].
    + assert (Hg : String.length id < String.length id1).
      { apply (G2 j); [lia|]. rewrite nth_batch by lia. exact Hacc. }
      destruct (productive_drop 36 r P 0) as (j1 & _ & Hacc1).
      destruct (IHm j1 j1 id1 (Nanoid.rng_drop 36 r)) as (f & id' & r' & H & P');
        [lia | lia | now apply productive_drop | exact Hacc1 | lia |].
      exists (S f), id', r'. cbn [Nanoid.customRandom Nanoid.getRandom]. rewrite Sc.
      split; assumption.
    + destruct (IHb (j - 36) id1 (Nanoid.rng_drop 36 r)) as (f & id' & r' & H & P').
      * lia.
      * lia.
      * now apply productive_drop.
      * unfold Nanoid.rng_drop. replace (36 + (j - 36)) with j by lia. exact Hacc.
      * lia.
      * exists (S f), id', r'. cbn [Nanoid.customRandom Nanoid.getRandom]. rewrite Sc.
        split; assumption.
Qed.

Lemma generateTrackingNumber_terminates (r : Nanoid.Rng) :
  productive r ->
  exists f tn r',
    TrackingService.generateTrackingNumber f r = Some (tn, r') /\ productive r'.
Proof.
  intros P. destruct (P 0) as (j & _ & Hacc).
  unfold TrackingService.generateTrackingNumber, Nanoid.customAlphabet.
  rewrite step_of_alphabet.
  apply (customRandom_terminates 12 j j "" r); [simpl; lia | simpl; lia | exact P | exact Hacc | lia].
Qed.

Lemma generateTrackingNumber_more_fuel (f f' : nat) (r : Nanoid.Rng)
      (x : string * Nanoid.Rng) :
  TrackingService.generateTrackingNumber f r = Some x -> f <= f' ->
  TrackingService.generateTrackingNumber f' r = Some x.
Proof. apply customRandom_more_fuel. Qed.

(** Successive calls of nanoid all return, given room enough. *)
Lemma candidates_terminates :
  forall k r,
    productive r ->
    exists f0, forall f, f0 <= f -> candidates f k r <> None.
Proof.
  induction k as [|k IH]; intros r P.
  - exists 0. intros f _. discriminate.
  - destruct (generateTrackingNumber_terminates r P) as (f1 & tn & r1 & G & P1).
    destruct (IH r1 P1) as (f2 & H2).
    exists (Nat.max f1 f2). intros f Hf. cbn [candidates].
    rewrite (generateTrackingNumber_more_fuel f1 f r (tn, r1) G) by lia.
    specialize (H2 f ltac:(lia)).
    destruct (candidates f k r1) as [[l r2]|]; [discriminate | contradiction].
Qed.

(** A run of the loop that returned returns the same with more room. *)
Lemma allocate_more_fuel (db : DB) (g g' : nat) :
  g <= g' ->
  forall f f' a r o n r',
    TrackingService.allocate f g a r db = (o, n, r') -> o <> Diverge -> f <= f' ->
    TrackingService.allocate f' g' a r db = (o, n, r').
Proof.
  intros Hg. induction f as [|f IH]; intros f' a r o n r' H Ho Hf;
    cbn [TrackingService.allocate] in H.
  - injection H as <- _ _. contradiction.
  - destruct f' as [|f']; [lia|]. cbn [TrackingService.allocate].
    destruct (TrackingService.MAX_ATTEMPTS <=? a)%nat; [exact H|].
    destruct (TrackingService.generateTrackingNumber g r) as [[tn r1]|] eqn:G.
    + rewrite (generateTrackingNumber_more_fuel g g' r (tn, r1) G Hg).
      destruct (Prisma.shipment_findUnique tn db); [|exact H].
      apply IH; [exact H | exact Ho | lia].
    + injection H as <- _ _. contradiction.
Qed.

(** The loop returns on a generator that keeps delivering accepted bytes,
    and what it returns does not depend on the room it is given. *)
Lemma allocate_terminates (r : Nanoid.Rng) (db : DB) :
  productive r ->
  exists fuel0 o n r',
    o <> Diverge /\
    forall f, fuel0 <= f -> TrackingService.allocate f f 0 r db = (o, n, r').
Proof.
  intros P. destruct (candidates_terminates TrackingService.MAX_ATTEMPTS r P) as (f0 & H0).
  set (F := Nat.max f0 (S TrackingService.MAX_ATTEMPTS)).
  destruct (allocate_spec F db F 0 r) as (o & n & cands & r' & H1 & H2 & H3 & H4);
    [lia | lia |].
  rewrite Nat.sub_0_r in H3.
  assert (Ho : o <> Diverge).
  { intros ->. destruct H4 as (Hn & _ & Hg).
    apply (H0 F); [lia|]. eapply candidates_prefix; eassumption. }
  exists F, o, n, r'. split; [exact Ho|].
  intros f Hf. apply (allocate_more_fuel db F f Hf F f 0 r o n r' H1 Ho Hf).
Qed.

Lemma accepted_rng_zero : forall i, accepted (rng_zero i).
Proof. intros i. vm_compute. reflexivity. Qed.

Lemma productive_rng_counting : productive rng_counting.
Proof.
  intros i. exists (64 * i). split; [lia|].
  unfold accepted, rng_counting. rewrite mask_of_alphabet.
  change 63%Z with (Z.ones 6). rewrite Z.land_ones by lia.
  rewrite Nat2Z.inj_mul. change (2 ^ 6)%Z with (Z.of_nat 64).
  rewrite Z.mul_comm, Z_mod_mult. vm_compute. reflexivity.
Qed.

(** C6: the loop of [generateUniqueTrackingNumber] draws candidates one
    after the other and tests each against the stored shipments.  Given room
    for eleven iterations it never needs more, whatever the store and the
    generator are: it draws [n <= 10] candidates; it returns the first one
    no shipment carries, all the earlier ones being taken; it throws the
    allocation error exactly when ten were drawn and all ten are taken; and
    it fails to return only when a call of nanoid itself does not return.
    It does return, whatever the outcomes of the tests are: at once when
    every byte of the generator indexes the alphabet, and with room enough
    when the generator keeps delivering such bytes, and then every larger
    room gives the same result. *)
Theorem generateUniqueTrackingNumber_bounded (fuel : nat) (r : Nanoid.Rng) (db : DB)
        (o : outcome string) (n : nat) (r' : Nanoid.Rng) :
  TrackingService.MAX_ATTEMPTS < fuel ->
  TrackingService.allocate fuel fuel 0 r db = (o, n, r') ->
  TrackingService.generateUniqueTrackingNumber fuel r db = (o, r') /\
  n <= TrackingService.MAX_ATTEMPTS /\
  TrackingService.MAX_ATTEMPTS = 10 /\
  (exists cands,
      candidates fuel n r = Some (cands, r') /\
      match o with
      | Ok tn =>
          exists used, cands = used ++ [tn] /\ Forall (taken db) used /\
                       Prisma.shipment_findUnique tn db = None
      | Throw e =>
          e = AllocationExhausted /\ n = TrackingService.MAX_ATTEMPTS /\
          Forall (taken db) cands
      | Diverge =>
          n < TrackingService.MAX_ATTEMPTS /\ Forall (taken db) cands /\
          TrackingService.generateTrackingNumber fuel r' = None
      end) /\
  ((forall i, accepted (r i)) -> o <> Diverge) /\
  ((forall i, exists j, i <= j /\ accepted (r j)) ->
   exists fuel0 o1 n1 r1,
     o1 <> Diverge /\
     forall f, fuel0 <= f -> TrackingService.allocate f f 0 r db = (o1, n1, r1)).
Proof.
  intros Hfuel H.
  destruct (allocate_spec fuel db fuel 0 r) as (o0 & n0 & cands & r0 & H1 & H2 & H3 & H4);
    [lia | lia |].
  rewrite H in H1. injection H1 as <- <- <-.
  rewrite Nat.sub_0_r in H3.
  split.
  { unfold TrackingService.generateUniqueTrackingNumber. rewrite H. reflexivity. }
  split; [lia|]. split; [reflexivity|].
  split; [exists cands; split; [exact H3 | exact H4]|].
  split; [|apply allocate_terminates].
  intros Hacc ->. destruct H4 as (Hn & _ & Hg).
  destruct fuel as [|fuel]; [lia|].
  apply (candidates_productive fuel TrackingService.MAX_ATTEMPTS r Hacc).
  eapply candidates_prefix; eassumption.
Qed.

Lemma generateUniqueTrackingNumber_bounded_witness :
  (forall i, accepted (rng_zero i)) /\
  TrackingService.generateUniqueTrackingNumber 11 rng_zero db_zero
  = (Throw AllocationExhausted, Nanoid.rng_drop 360 rng_zero) /\
  10 <= TrackingService.MAX_ATTEMPTS /\
  TrackingService.MAX_ATTEMPTS = 10 /\
  (exists cands,
      candidates 11 10 rng_zero = Some (cands, Nanoid.rng_drop 360 rng_zero) /\
      AllocationExhausted = AllocationExhausted /\ 10 = TrackingService.MAX_ATTEMPTS /\
      Forall (taken db_zero) cands) /\
  ((forall i, accepted (rng_zero i)) ->
   Throw AllocationExhausted <> @Diverge string) /\
  ((forall i, exists j, i <= j /\ accepted (rng_zero j)) ->
   exists fuel0 o1 n1 r1,
     o1 <> Diverge /\
     forall f, fuel0 <= f ->
               TrackingService.allocate f f 0 rng_zero db_zero = (o1, n1, r1)).
Proof.
  split; [exact accepted_rng_zero|].
  apply (generateUniqueTrackingNumber_bounded 11 rng_zero db_zero
           (Throw AllocationExhausted) 10 (Nanoid.rng_drop 360 rng_zero)).
  - unfold TrackingService.MAX_ATTEMPTS. lia.
  - vm_compute. reflexivity.
Defined.

Example allocate_on_counting_bytes :
  productive rng_counting /\
  forall f, 1 <= f ->
    TrackingService.allocate f f 0 rng_counting db_zero
    = (Ok "ZYXWVUTSRQPN", 1, Nanoid.rng_drop 36 rng_counting).
Proof.
  split; [exact productive_rng_counting|]. intros f Hf.
  apply (allocate_more_fuel db_zero 1 f Hf 1 f); [vm_compute; reflexivity | discriminate | exact Hf].
Qed.

(** A generator none of whose bytes indexes the alphabet: nanoid does not
    return within fifty batches. *)
Example allocate_on_rejected_bytes :
  fst (TrackingService.allocate 50 50 0 (fun _ => 255%Z) db_empty) = (Diverge, 0).
Proof. vm_compute. reflexivity. Qed.

(** ** The format of tracking numbers *)

Lemma over_alphabet_no_I_O (s : string) :
  over TrackingService.alphabet s ->
  ~ In "I"%char (chars s) /\ ~ In "O"%char (chars s).
Proof.
  unfold over. intros H.
  split; intros Hin; eapply Forall_forall in H; try exact Hin;
    vm_compute in H; repeat (destruct H as [H|H]; [discriminate H|]); exact H.
Qed.

Lemma allocate_well_formed (g : nat) (db : DB) :
  forall fuel a r tn n r',
    TrackingService.allocate fuel g a r db = (Ok tn, n, r') -> well_formed tn.
Proof.
  induction fuel as [|fuel IH]; intros a r tn n r' H; cbn [TrackingService.allocate] in H;
    [discriminate|].
  destruct (TrackingService.MAX_ATTEMPTS <=? a)%nat; [discriminate|].
  destruct (TrackingService.generateTrackingNumber g r) as [[c r1]|] eqn:G; [|discriminate].
  destruct (Prisma.shipment_findUnique c db).
  - eapply IH; eassumption.
  - inversion H; subst. eapply generateTrackingNumber_well_formed; eassumption.
Qed.

Lemma createShipment_inv (fuel : nat) (now : Date)
      (data : TrackingService.CreateShipmentData) (r r' : Nanoid.Rng)
      (db db' : DB) (s : Shipment.t) :
  TrackingService.createShipment fuel now data r db = (Ok s, r', db') ->
  TrackingService.generateUniqueTrackingNumber fuel r db
  = (Ok (Shipment.trackingNumber s), r') /\
  Prisma.shipment_findUnique (Shipment.trackingNumber s) db = None /\
  s = {| Shipment.id := nextId db;
         Shipment.trackingNumber := Shipment.trackingNumber s;
         Shipment.carrierTrackingNumber := TrackingService.cs_carrierTrackingNumber data;
         Shipment.carrier := TrackingService.cs_carrier data;
         Shipment.status := PENDING;
         Shipment.estimatedDelivery := TrackingService.cs_estimatedDelivery data;
         Shipment.actualDelivery := None;
         Shipment.createdAt := now;
         Shipment.updatedAt := now;
         Shipment.userId := TrackingService.cs_userId data |} /\
  db' = {| users := users db; leads := leads db;
           shipments := shipments db ++ [s];
           events := events db; nextId := S (nextId db);
           minDate := minDate db; maxDate := maxDate db |}.
Proof.
  unfold TrackingService.createShipment. intros H.
  destruct (TrackingService.generateUniqueTrackingNumber fuel r db) as [[tn|e|] r1];
    [|discriminate|discriminate].
  unfold Prisma.shipment_create in H.
  cbn [Prisma.ci_trackingNumber Prisma.ci_userId Prisma.ci_estimatedDelivery
         Prisma.ci_carrier] in H.
  destruct (negb (Prisma.opt_date_ok db (TrackingService.cs_estimatedDelivery data)));
    [discriminate|].
  destruct (negb (Prisma.fits 100 (TrackingService.cs_carrier data))); [discriminate|].
  destruct (Prisma.shipment_findUnique tn db) eqn:F; [discriminate|].
  destruct (Prisma.user_exists (TrackingService.cs_userId data) db); [|discriminate].
  inversion H; subst. cbn. repeat split; assumption.
Qed.

(** C7: every tracking number the allocator returns, and so the tracking
    number of every shipment [createShipment] creates, has exactly twelve
    characters, all of them from 0123456789ABCDEFGHJKLMNPQRSTUVWXYZ; neither
    I nor O occurs in it. *)
Theorem tracking_number_format (fuel : nat) (r : Nanoid.Rng) (db : DB) :
  (forall tn r',
      TrackingService.generateUniqueTrackingNumber fuel r db = (Ok tn, r') ->
      well_formed tn /\ ~ In "I"%char (chars tn) /\ ~ In "O"%char (chars tn)) /\
  (forall now data s r' db',
      TrackingService.createShipment fuel now data r db = (Ok s, r', db') ->
      well_formed (Shipment.trackingNumber s) /\
      ~ In "I"%char (chars (Shipment.trackingNumber s)) /\
      ~ In "O"%char (chars (Shipment.trackingNumber s))).
Proof.
  assert (A : forall tn r',
             TrackingService.generateUniqueTrackingNumber fuel r db = (Ok tn, r') ->
             well_formed tn /\ ~ In "I"%char (chars tn) /\ ~ In "O"%char (chars tn)).
  { intros tn r' H. unfold TrackingService.generateUniqueTrackingNumber in H.
    destruct (TrackingService.allocate fuel fuel 0 r db) as [[o n] r1] eqn:E.
    inversion H; subst.
    assert (W : well_formed tn) by (eapply allocate_well_formed; eassumption).
    split; [exact W|]. apply over_alphabet_no_I_O. apply W. }
  split; [exact A|].
  intros now data s r' db' H.
  apply createShipment_inv in H. destruct H as (H & _). eapply A; eassumption.
Qed.

Lemma tracking_number_format_witness :
  well_formed "ZYXWVUTSRQPN" /\
  ~ In "I"%char (chars "ZYXWVUTSRQPN") /\ ~ In "O"%char (chars "ZYXWVUTSRQPN").
Proof.
  apply (proj1 (tracking_number_format 11 rng_counting db_zero)
           "ZYXWVUTSRQPN" (Nanoid.rng_drop 36 rng_counting)).
  vm_compute. reflexivity.
Defined.

(** ** Rows and their order *)

Lemma TrackingStatus_eqb_eq (a b : TrackingStatus) :
  TrackingStatus_eqb a b = true <-> a = b.
Proof.
  destruct a, b; cbn; split; intros H; try reflexivity; discriminate H.
Qed.

Lemma update_first_find {A} (p : A -> bool) (f : A -> A) :
  forall l,
    match find p l with
    | None => Prisma.update_first p f l = None
    | Some x =>
        exists l1 l2,
          l = l1 ++ x :: l2 /\ p x = true /\ (forall z, In z l1 -> p z = false) /\
          Prisma.update_first p f l = Some (f x, l1 ++ f x :: l2)
    end.
Proof.
  induction l as [|a l IH]; cbn [find Prisma.update_first]; [reflexivity|].
  destruct (p a) eqn:Pa.
  - exists [], l. repeat split; [exact Pa | intros z []].
  - destruct (find p l) as [x|].
    + destruct IH as (l1 & l2 & -> & Px & Hl1 & ->).
      exists (a :: l1), l2. repeat split; [exact Px|].
      intros z [<-|Hz]; [exact Pa | exact (Hl1 z Hz)].
    + rewrite IH. reflexivity.
Qed.

Lemma find_first {A} (p : A -> bool) (l1 l2 : list A) (x : A) :
  (forall z, In z l1 -> p z = false) -> p x = true ->
  find p (l1 ++ x :: l2) = Some x.
Proof.
  intros H Px. induction l1 as [|a l1 IH]; cbn [app find].
  - now rewrite Px.
  - rewrite (H a (or_introl eq_refl)). apply IH. intros z Hz. apply H. now right.
Qed.

Lemma insert_desc_perm {A} (key : A -> Z) (x : A) (l : list A) :
  Permutation (x :: l) (Prisma.insert_desc key x l).
Proof.
  induction l as [|y l IH]; cbn [Prisma.insert_desc]; [reflexivity|].
  destruct (key y <=? key x)%Z; [reflexivity|].
  rewrite perm_swap. now constructor.
Qed.

Lemma sort_desc_perm {A} (key : A -> Z) (l : list A) :
  Permutation l (Prisma.sort_desc key l).
Proof.
  induction l as [|x l IH]; cbn; [constructor|].
  rewrite <- insert_desc_perm. now constructor.
Qed.

Lemma insert_desc_sorted {A} (key : A -> Z) (x : A) (l : list A) :
  Sorted (newer_first key) l -> Sorted (newer_first key) (Prisma.insert_desc key x l).
Proof.
  induction l as [|y l IH]; intros S; cbn [Prisma.insert_desc].
  - repeat constructor.
  - destruct (key y <=? key x)%Z eqn:E.
    + apply Z.leb_le in E. constructor; [exact S|]. constructor. exact E.
    + apply Z.leb_gt in E. inversion S as [|? ? S' Hd]; subst.
      constructor; [apply IH; exact S'|].
      destruct l as [|z l]; cbn [Prisma.insert_desc].
      * constructor. unfold newer_first. lia.
      * destruct (key z <=? key x)%Z; constructor.
        -- unfold newer_first. lia.
        -- inversion Hd; subst. assumption.
Qed.

Lemma sort_desc_sorted {A} (key : A -> Z) (l : list A) :
  Sorted (newer_first key) (Prisma.sort_desc key l).
Proof.
  induction l as [|x l IH]; cbn; [constructor|]. now apply insert_desc_sorted.
Qed.

(** A row strictly newer than all the others comes first. *)
Lemma sort_desc_newest_last {A} (key : A -> Z) (e : A) :
  forall l,
    (forall x, In x l -> (key x < key e)%Z) ->
    Prisma.sort_desc key (l ++ [e]) = e :: Prisma.sort_desc key l.
Proof.
  induction l as [|a l IH]; intros H; [reflexivity|].
  cbn [app Prisma.sort_desc fold_right].
  change (fold_right (Prisma.insert_desc key) [] (l ++ [e]))
    with (Prisma.sort_desc key (l ++ [e])).
  rewrite IH by (intros x Hx; apply H; now right).
  cbn [Prisma.insert_desc].
  assert (key a < key e)%Z by (apply H; now left).
  destruct (key e <=? key a)%Z eqn:E; [apply Z.leb_le in E; lia | reflexivity].
Qed.

(** ** [updateShipmentStatus] *)

Lemma shipment_id_exists_mid (l1 l2 : list Shipment.t) (s : Shipment.t) (db : DB) :
  shipments db = l1 ++ s :: l2 -> Prisma.shipment_id_exists (Shipment.id s) db = true.
Proof.
  unfold Prisma.shipment_id_exists. intros ->.
  rewrite existsb_app. cbn [existsb]. rewrite Nat.eqb_refl.
  now rewrite orb_true_r.
Qed.

(** The whole behaviour of [updateShipmentStatus], by cases on the lookup
    and on the data. *)
Lemma updateShipmentStatus_cases (now : Date) (tn : string) (st : TrackingStatus)
      (data : TrackingService.UpdateStatusData) (db : DB) :
  match Prisma.shipment_findUnique tn db with
  | None =>
      TrackingService.updateShipmentStatus now tn st data db
      = (Throw (if TrackingStatus_eqb st DELIVERED
                   && negb (Prisma.date_ok db (TrackingService.effective_timestamp now data))
                then PrismaValidationError else P2025_RecordNotFound), db)
  | Some s =>
      exists l1 l2,
        shipments db = l1 ++ s :: l2 /\
        (forall z, In z l1 -> Prisma.has_tn tn z = false) /\
        Prisma.has_tn tn s = true /\
        TrackingService.updateShipmentStatus now tn st data db
        = if status_data_ok now data db
          then (Ok (status_row now st data s),
                {| users := users db; leads := leads db;
                   shipments := l1 ++ status_row now st data s :: l2;
                   events := events db ++ [status_event now st data s db];
                   nextId := S (nextId db);
                   minDate := minDate db; maxDate := maxDate db |})
          else (Throw (if Prisma.date_ok db (TrackingService.effective_timestamp now data)
                       then P2000_ValueTooLong else PrismaValidationError), db)
  end.
Proof.
  unfold Prisma.shipment_findUnique.
  pose proof (update_first_find (Prisma.has_tn tn)
                (Prisma.apply_update now
                   {| Prisma.ui_status := st;
                      Prisma.ui_actualDelivery :=
                        if TrackingStatus_eqb st DELIVERED
                        then Some (TrackingService.effective_timestamp now data)
                        else None |}) (shipments db)) as U.
  unfold TrackingService.updateShipmentStatus, Prisma.transaction, Prisma.bind,
    Prisma.shipment_update, status_data_ok.
  cbn [Prisma.ui_actualDelivery].
  set (T := TrackingService.effective_timestamp now data) in *.
  assert (Hopt : Prisma.opt_date_ok db
                   (if TrackingStatus_eqb st DELIVERED then Some T else None)
                 = negb (TrackingStatus_eqb st DELIVERED && negb (Prisma.date_ok db T))).
  { destruct (TrackingStatus_eqb st DELIVERED); cbn; [now rewrite negb_involutive|reflexivity]. }
  rewrite Hopt, negb_involutive.
  destruct (find (Prisma.has_tn tn) (shipments db)) as [s|].
  - destruct U as (l1 & l2 & E & Ps & Hl1 & U).
    exists l1, l2. repeat split; try assumption.
    destruct (Prisma.date_ok db T) eqn:Hd.
    + rewrite andb_false_r. rewrite U. unfold Prisma.trackingEvent_create.
      cbn [Prisma.ei_shipmentId Prisma.ei_timestamp Prisma.ei_location].
      unfold Prisma.date_ok in *. cbn [minDate maxDate]. fold T. rewrite Hd.
      cbn [negb andb].
      destruct (Prisma.fits 200 (TrackingService.us_location data)); cbn [negb];
        [|reflexivity].
      erewrite shipment_id_exists_mid by (cbn [shipments]; reflexivity).
      reflexivity.
    + cbn [andb negb]. rewrite andb_true_r.
      destruct (TrackingStatus_eqb st DELIVERED); [reflexivity|].
      rewrite U. unfold Prisma.trackingEvent_create.
      cbn [Prisma.ei_shipmentId Prisma.ei_timestamp Prisma.ei_location].
      unfold Prisma.date_ok in *. cbn [minDate maxDate]. fold T. rewrite Hd.
      reflexivity.
  - destruct (TrackingStatus_eqb st DELIVERED && negb (Prisma.date_ok db T));
      [reflexivity|]. rewrite U. reflexivity.
Qed.

(** A successful update, taken apart. *)
Lemma updateShipmentStatus_Ok (now : Date) (tn : string) (st : TrackingStatus)
      (data : TrackingService.UpdateStatusData) (db db' : DB) (s' : Shipment.t) :
  TrackingService.updateShipmentStatus now tn st data db = (Ok s', db') ->
  exists s l1 l2,
    Prisma.shipment_findUnique tn db = Some s /\
    shipments db = l1 ++ s :: l2 /\
    (forall z, In z l1 -> Prisma.has_tn tn z = false) /\
    Prisma.has_tn tn s = true /\
    status_data_ok now data db = true /\
    s' = status_row now st data s /\
    db' = {| users := users db; leads := leads db;
             shipments := l1 ++ status_row now st data s :: l2;
             events := events db ++ [status_event now st data s db];
             nextId := S (nextId db);
             minDate := minDate db; maxDate := maxDate db |}.
Proof.
  intros H. pose proof (updateShipmentStatus_cases now tn st data db) as C.
  destruct (Prisma.shipment_findUnique tn db) as [s|]; [|rewrite C in H; discriminate].
  destruct C as (l1 & l2 & E & Hl1 & Ps & C). rewrite C in H.
  destruct (status_data_ok now data db); [|discriminate].
  injection H as <- <-. exists s, l1, l2. repeat split; assumption.
Qed.

(** An update that does not succeed leaves the store as it was. *)
Lemma updateShipmentStatus_not_Ok (now : Date) (tn : string) (st : TrackingStatus)
      (data : TrackingService.UpdateStatusData) (db db' : DB) (o : outcome Shipment.t) :
  TrackingService.updateShipmentStatus now tn st data db = (o, db') ->
  isOk o = false -> db' = db.
Proof.
  intros H Ho. pose proof (updateShipmentStatus_cases now tn st data db) as C.
  destruct (Prisma.shipment_findUnique tn db) as [s|].
  - destruct C as (l1 & l2 & _ & _ & _ & C). rewrite C in H.
    destruct (status_data_ok now data db); injection H as <- <-;
      [discriminate Ho | reflexivity].
  - rewrite C in H. injection H as <- <-. reflexivity.
Qed.

Lemma transaction_throw_unchanged {A} (body : Prisma.M A) (db db' : DB) (e : Error) :
  Prisma.transaction body db = (Throw e, db') -> db' = db.
Proof.
  unfold Prisma.transaction. destruct (body db) as [[a|e'|] d]; intros H; inversion H.
  reflexivity.
Qed.

(** A failure between the two writes leaves no trace of the first one. *)
Example transaction_interrupted :
  Prisma.transaction
    (Prisma.bind
       (Prisma.shipment_update 2000%Z tn_zero
          {| Prisma.ui_status := IN_TRANSIT; Prisma.ui_actualDelivery := None |})
       (fun _ => Prisma.throw (A := Shipment.t) P2003_ForeignKeyConstraint))
    db_zero
  = (Throw P2003_ForeignKeyConstraint, db_zero).
Proof. vm_compute. reflexivity. Qed.



Example update_rejected_after_first_write :
  Prisma.bind
    (Prisma.shipment_update 2000%Z tn_zero
       {| Prisma.ui_status := IN_TRANSIT; Prisma.ui_actualDelivery := None |})
    (fun shipment =>
       Prisma.trackingEvent_create 2000%Z
         {| Prisma.ei_shipmentId := Shipment.id shipment;
            Prisma.ei_status := IN_TRANSIT;
            Prisma.ei_description := "Held at depot";
            Prisma.ei_location := Some long_location;
            Prisma.ei_timestamp := 100%Z |})
    db_zero
  = (Throw P2000_ValueTooLong,
     {| users := users db_zero; leads := leads db_zero;
        shipments := [Shipment.mk 0 tn_zero None None IN_TRANSIT None None 1000%Z 2000%Z None];
        events := []; nextId := 1;
        minDate := year_0000; maxDate := year_9999 |})
  /\ TrackingService.updateShipmentStatus 2000%Z tn_zero IN_TRANSIT (held 100%Z) db_zero
     = (Throw P2000_ValueTooLong, db_zero)
  /\ shipments db_zero
     = [Shipment.mk 0 tn_zero None None PENDING None None 1000%Z 1000%Z None].
Proof. vm_compute. repeat split. Qed.


Example update_unknown_tracking_number :
  TrackingService.updateShipmentStatus 2000%Z "ZZZZZZZZZZZZ" IN_TRANSIT (departed 100%Z) db_zero
  = (Throw P2025_RecordNotFound, db_zero).
Proof. vm_compute. reflexivity. Qed.

(** ** Status and events *)

Lemma filter_app_one {A} (p : A -> bool) (l : list A) (x : A) :
  p x = true -> filter p (l ++ [x]) = filter p l ++ [x].
Proof.
  intros H. rewrite filter_app. cbn. now rewrite H.
Qed.


(** C3, as the code has it: after a successful
    [updateShipmentStatus(tn, S, ...)], [getShipment(tn)] returns the updated
    row, whose status is [S]; the event inserted last has status [S] and the
    effective timestamp and is among the events returned; it is the first of
    them when its timestamp is later than that of every earlier event of the
    shipment. *)
Theorem status_event_consistency (now : Date) (tn : string) (st : TrackingStatus)
        (data : TrackingService.UpdateStatusData) (db db' : DB) (s' : Shipment.t) :
  TrackingService.updateShipmentStatus now tn st data db = (Ok s', db') ->
  exists evs e,
    TrackingService.getShipment tn db' = Some (s', evs) /\
    Shipment.status s' = st /\
    events db' = events db ++ [e] /\
    TrackingEvent.status e = st /\
    TrackingEvent.timestamp e = TrackingService.effective_timestamp now data /\
    TrackingEvent.shipmentId e = Shipment.id s' /\
    In e evs /\
    ((forall e0, In e0 (events db) ->
                 TrackingEvent.shipmentId e0 = Shipment.id s' ->
                 (TrackingEvent.timestamp e0 < TrackingEvent.timestamp e)%Z) ->
     exists rest, evs = e :: rest).
Proof.
  intros H. apply updateShipmentStatus_Ok in H.
  destruct H as (s & l1 & l2 & F & E & Hl1 & Ps & _ & -> & ->).
  set (e := status_event now st data s db).
  set (s' := status_row now st data s).
  assert (Pe : Nat.eqb (TrackingEvent.shipmentId e) (Shipment.id s') = true)
    by apply Nat.eqb_refl.
  exists (Prisma.events_of (Shipment.id s')
            {| users := users db; leads := leads db;
               shipments := l1 ++ s' :: l2;
               events := events db ++ [e];
               nextId := S (nextId db);
               minDate := minDate db; maxDate := maxDate db |}), e.
  split.
  { unfold TrackingService.getShipment, Prisma.shipment_findUnique. cbn [shipments].
    rewrite (find_first (Prisma.has_tn tn) l1 l2 s' Hl1 Ps). reflexivity. }
  split; [reflexivity|]. split; [reflexivity|]. split; [reflexivity|].
  split; [reflexivity|]. split; [reflexivity|].
  unfold Prisma.events_of. cbn [events].
  rewrite (filter_app_one _ _ e Pe).
  split.
  - eapply Permutation_in; [apply sort_desc_perm|]. apply in_or_app. right. now left.
  - intros Hnew. eexists. apply sort_desc_newest_last.
    intros x Hx. apply filter_In in Hx. destruct Hx as [Hx1 Hx2].
    apply Hnew; [exact Hx1 | now apply Nat.eqb_eq].
Qed.

Lemma status_event_consistency_witness :
  exists evs e,
    TrackingService.getShipment tn_zero db_delivered = Some (row_delivered, evs) /\
    Shipment.status row_delivered = DELIVERED /\
    events db_delivered = events db_transit ++ [e] /\
    TrackingEvent.status e = DELIVERED /\
    TrackingEvent.timestamp e
    = TrackingService.effective_timestamp 3000%Z (front_door (Some 200%Z)) /\
    TrackingEvent.shipmentId e = Shipment.id row_delivered /\
    In e evs /\
    ((forall e0, In e0 (events db_transit) ->
                 TrackingEvent.shipmentId e0 = Shipment.id row_delivered ->
                 (TrackingEvent.timestamp e0 < TrackingEvent.timestamp e)%Z) ->
     exists rest, evs = e :: rest).
Proof.
  apply (status_event_consistency 3000%Z tn_zero DELIVERED (front_door (Some 200%Z))
           db_transit).
  vm_compute. reflexivity.
Defined.

(** C3 as stated fails: a delivery reported with a timestamp earlier than
    the transit event leaves the shipment DELIVERED while the first event
    [getShipment] returns is still the transit one. *)
Lemma status_event_consistency_counterexample :
  exists s' e evs,
    TrackingService.updateShipmentStatus 3000%Z tn_zero DELIVERED
      (front_door (Some 50%Z)) db_transit = (Ok s', db_late) /\
    TrackingService.getShipment tn_zero db_late = Some (s', e :: evs) /\
    Shipment.status s' = DELIVERED /\
    TrackingEvent.status e = IN_TRANSIT /\
    TrackingEvent.timestamp e = 100%Z /\
    TrackingEvent.status e <> DELIVERED.
Proof.
  do 3 eexists. vm_compute. repeat split. discriminate.
Qed.

(** ** [actualDelivery] *)


Lemma same_id_same_row (l : list Shipment.t) (a b : Shipment.t) :
  NoDup (map Shipment.id l) -> In a l -> In b l ->
  Shipment.id a = Shipment.id b -> a = b.
Proof.
  induction l as [|x l IH]; intros N Ha Hb E; [contradiction|].
  cbn in N. inversion N as [|? ? Hx N']; subst.
  destruct Ha as [<-|Ha], Hb as [<-|Hb].
  - reflexivity.
  - exfalso. apply Hx. rewrite E. now apply in_map.
  - exfalso. apply Hx. rewrite <- E. now apply in_map.
  - now apply IH.
Qed.

Lemma status_row_id now st data s :
  Shipment.id (status_row now st data s) = Shipment.id s.
Proof. reflexivity. Qed.






(** ** [convertToShipment] *)


Lemma convertToShipment_cases (now : Date) (leadId : Z)
      (data : LeadService.ShipmentData) (db : DB) :
  LeadService.convertToShipment now leadId data db
  = (match Prisma.lead_findUnique leadId db with
     | None => Throw LeadNotFound
     | Some lead =>
         if LeadStatus.eqb (Lead.status lead) LeadStatus.converted
         then Throw LeadAlreadyConverted
         else Throw PrismaValidationError
     end, db).
Proof.
  unfold LeadService.convertToShipment, LeadService.convert_check.
  destruct (Prisma.lead_findUnique leadId db) as [lead|]; [|reflexivity].
  destruct (LeadStatus.eqb (Lead.status lead) LeadStatus.converted); reflexivity.
Qed.

Lemma createShipment_not_created (fuel : nat) (now : Date)
      (data : TrackingService.CreateShipmentData) (r r' : Nanoid.Rng)
      (db db' : DB) (o : outcome Shipment.t) :
  TrackingService.createShipment fuel now data r db = (o, r', db') ->
  isOk o = false -> db' = db.
Proof.
  unfold TrackingService.createShipment. intros H Ho.
  destruct (TrackingService.generateUniqueTrackingNumber fuel r db) as [[tn|e|] r1];
    [|injection H as _ _ <-; reflexivity|injection H as _ _ <-; reflexivity].
  unfold Prisma.shipment_create in H.
  cbn [Prisma.ci_trackingNumber Prisma.ci_userId Prisma.ci_estimatedDelivery
         Prisma.ci_carrier] in H.
  destruct (negb (Prisma.opt_date_ok db (TrackingService.cs_estimatedDelivery data)));
    [injection H as _ _ <-; reflexivity|].
  destruct (negb (Prisma.fits 100 (TrackingService.cs_carrier data)));
    [injection H as _ _ <-; reflexivity|].
  destruct (Prisma.shipment_findUnique tn db); [injection H as _ _ <-; reflexivity|].
  destruct (Prisma.user_exists (TrackingService.cs_userId data) db);
    injection H as <- _ <-; [discriminate Ho | reflexivity].
Qed.




Example history_result :
  map (fun s => (Shipment.id s, Shipment.status s, Shipment.actualDelivery s))
    (shipments (fst (run history db_leads [])))
  = [(0, DELIVERED, Some 4500%Z); (1, PENDING, None)]
  /\ snd (run history db_leads []) = [0; 0].
Proof. vm_compute. split; reflexivity. Qed.

Example returned_keeps_actualDelivery :
  map (fun s => (Shipment.id s, Shipment.status s, Shipment.actualDelivery s))
    (shipments (fst (run (firstn 5 history) db_leads [])))
  = [(0, RETURNED, Some 2000%Z); (1, PENDING, None)].
Proof. vm_compute. reflexivity. Qed.



Example delivered_at_the_given_time :
  map Shipment.actualDelivery
    (shipments (snd (TrackingService.updateShipmentStatus 3000%Z tn_zero DELIVERED
                       (front_door (Some 200%Z)) db_transit)))
  = [Some 200%Z].
Proof. vm_compute. reflexivity. Qed.

Example delivered_at_the_time_of_the_call :
  map Shipment.actualDelivery
    (shipments (snd (TrackingService.updateShipmentStatus 3000%Z tn_zero DELIVERED
                       (front_door None) db_transit)))
  = [Some 3000%Z].
Proof. vm_compute. reflexivity. Qed.

(** ** [listShipments] *)


Lemma matching_spec (params : TrackingService.ListParams) (db : DB) (s : Shipment.t) :
  In s (matching params db) <->
  In s (shipments db) /\
  (forall u, TrackingService.lp_userId params = Some u -> u <> "" ->
             Shipment.userId s = Some u) /\
  (forall st, TrackingService.lp_status params = Some st -> Shipment.status s = st).
Proof.
  unfold matching. rewrite filter_In. unfold TrackingService.matches.
  destruct params as [uid st pg lim]. cbn.
  apply and_iff_compat_l. rewrite andb_true_iff.
  assert (A : (match TrackingService.where_userId uid with
               | Some u => match Shipment.userId s with
                           | Some v => (v =? u)%string
                           | None => false
                           end
               | None => true
               end = true) <->
              (forall u, uid = Some u -> u <> "" -> Shipment.userId s = Some u)).
  { destruct uid as [u|]; cbn.
    - destruct (u =? "")%string eqn:E.
      + apply String.eqb_eq in E. subst u. split; [|reflexivity].
        intros _ u H. inversion H; subst. congruence.
      + apply String.eqb_neq in E. destruct (Shipment.userId s) as [v|].
        * rewrite String.eqb_eq. split.
          -- intros -> u' H _. inversion H; subst; reflexivity.
          -- intros H. specialize (H u eq_refl E). congruence.
        * split; [discriminate|]. intros H. specialize (H u eq_refl E). discriminate.
    - split; [|reflexivity]. intros _ u H. discriminate. }
  assert (B : (match st with
               | Some x => TrackingStatus_eqb (Shipment.status s) x
               | None => true
               end = true) <->
              (forall x, st = Some x -> Shipment.status s = x)).
  { destruct st as [x|].
    - rewrite TrackingStatus_eqb_eq. split.
      + intros <- y H. inversion H; reflexivity.
      + intros H. now apply H.
    - split; [|reflexivity]. intros _ x H. discriminate. }
  rewrite A, B. reflexivity.
Qed.

Example list_in_transit_page_2 :
  match TrackingService.listShipments in_transit_page_2 db_twelve with
  | Ok res =>
      map (fun row => Shipment.id (fst row)) (TrackingService.lr_shipments res)
      = [6; 5; 4; 3; 2] /\
      TrackingService.total (TrackingService.lr_pagination res) = 12%Z /\
      TrackingService.totalPages (TrackingService.lr_pagination res) = Num 3
  | _ => False
  end.
Proof. vm_compute. repeat split. Qed.




(** C10: an empty [userId] filters nothing: the result is the one obtained
    without [userId], whatever the store, the status, the page and the limit
    are, and the shipments selected are those of every user that have the
    requested status, not those whose [userId] is the empty string. *)
Theorem listShipments_empty_userId (db : DB) (status : option TrackingStatus)
        (page limit : option Z) :
  TrackingService.listShipments
    {| TrackingService.lp_userId := Some "";
       TrackingService.lp_status := status;
       TrackingService.lp_page := page;
       TrackingService.lp_limit := limit |} db
  = TrackingService.listShipments
      {| TrackingService.lp_userId := None;
         TrackingService.lp_status := status;
         TrackingService.lp_page := page;
         TrackingService.lp_limit := limit |} db
  /\
  (forall s,
      In s (matching {| TrackingService.lp_userId := Some "";
                        TrackingService.lp_status := status;
                        TrackingService.lp_page := page;
                        TrackingService.lp_limit := limit |} db) <->
      In s (shipments db) /\
      (forall st, status = Some st -> Shipment.status s = st)).
Proof.
  split.
  - unfold TrackingService.listShipments. cbn [TrackingService.lp_userId].
    unfold TrackingService.matches, TrackingService.where_userId.
    rewrite String.eqb_refl. reflexivity.
  - intros s. rewrite matching_spec. cbn.
    split.
    + intros (H1 & _ & H3). split; assumption.
    + intros (H1 & H3). split; [exact H1|]. split; [|exact H3].
      intros u E N. inversion E; subst. contradiction.
Qed.

Example list_by_user :
  match TrackingService.listShipments
          {| TrackingService.lp_userId := Some "u1"; TrackingService.lp_status := None;
             TrackingService.lp_page := None; TrackingService.lp_limit := None |}
          db_twelve with
  | Ok res =>
      map (fun row => Shipment.id (fst row)) (TrackingService.lr_shipments res)
      = [12; 9; 6; 3; 0]
  | _ => False
  end.
Proof. vm_compute. reflexivity. Qed.

(** ** Lead conversion *)

Lemma LeadStatus_eqb_eq (a b : LeadStatus.t) : LeadStatus.eqb a b = true <-> a = b.
Proof.
  destruct a, b; cbn; split; intros H; try reflexivity; discriminate H.
Qed.

(** The guard of [convertToShipment]: a converted lead is refused before
    anything is written. *)
Lemma convertToShipment_already_converted (now : Date) (leadId : Z)
      (data : LeadService.ShipmentData) (db : DB) (lead : Lead.t) :
  Prisma.lead_findUnique leadId db = Some lead ->
  Lead.status lead = LeadStatus.converted ->
  LeadService.convertToShipment now leadId data db = (Throw LeadAlreadyConverted, db).
Proof.
  intros F S. rewrite convertToShipment_cases, F, S. reflexivity.
Qed.

(** C1, on the code: for an existing lead that is not converted,
    [convertToShipment] allocates no tracking number; the row it asks the
    store to create lacks the required column, the call throws and no
    shipment is created. *)
Theorem convertToShipment_creates_no_shipment (now : Date) (leadId : Z)
        (data : LeadService.ShipmentData) (db : DB) (lead : Lead.t) :
  Prisma.lead_findUnique leadId db = Some lead ->
  Lead.status lead <> LeadStatus.converted ->
  LeadService.convertToShipment now leadId data db = (Throw PrismaValidationError, db).
Proof.
  intros F S. rewrite convertToShipment_cases, F.
  destruct (LeadStatus.eqb (Lead.status lead) LeadStatus.converted) eqn:E; [|reflexivity].
  apply LeadStatus_eqb_eq in E. contradiction.
Qed.

Lemma convertToShipment_creates_no_shipment_witness :
  LeadService.convertToShipment 9000%Z 7%Z dhl db_leads
  = (Throw PrismaValidationError, db_leads).
Proof.
  apply (convertToShipment_creates_no_shipment 9000%Z 7%Z dhl db_leads lead_new).
  - reflexivity.
  - discriminate.
Defined.

(** C2, on the code: two calls in a row on a lead that is not converted both
    throw the store's validation error and leave the store as it was; the
    second one does not report that the lead is already converted. *)
Theorem convertToShipment_twice (now1 now2 : Date) (leadId : Z)
        (d1 d2 : LeadService.ShipmentData) (db : DB) (lead : Lead.t) :
  Prisma.lead_findUnique leadId db = Some lead ->
  Lead.status lead <> LeadStatus.converted ->
  LeadService.convertToShipment now1 leadId d1 db = (Throw PrismaValidationError, db) /\
  LeadService.convertToShipment now2 leadId d2
    (snd (LeadService.convertToShipment now1 leadId d1 db))
  = (Throw PrismaValidationError, db).
Proof.
  intros F S.
  assert (E : LeadStatus.eqb (Lead.status lead) LeadStatus.converted = false).
  { destruct (LeadStatus.eqb (Lead.status lead) LeadStatus.converted) eqn:E; [|reflexivity].
    apply LeadStatus_eqb_eq in E. contradiction. }
  rewrite (convertToShipment_cases now1). cbn [snd].
  rewrite (convertToShipment_cases now2), F, E. split; reflexivity.
Qed.

Lemma convertToShipment_twice_witness :
  LeadService.convertToShipment 9000%Z 7%Z no_shipment_data db_leads
  = (Throw PrismaValidationError, db_leads) /\
  LeadService.convertToShipment 9500%Z 7%Z no_shipment_data
    (snd (LeadService.convertToShipment 9000%Z 7%Z no_shipment_data db_leads))
  = (Throw PrismaValidationError, db_leads).
Proof.
  apply (convertToShipment_twice 9000%Z 9500%Z 7%Z no_shipment_data no_shipment_data
           db_leads lead_new).
  - reflexivity.
  - discriminate.
Defined.

Example convert_converted_lead :
  LeadService.convertToShipment 9000%Z 8%Z no_shipment_data db_leads
  = (Throw LeadAlreadyConverted, db_leads).
Proof. reflexivity. Qed.



(** ** What whole histories maintain *)

Lemma run_fst (cs : list call) : forall db seen, fst (run cs db seen) = run_calls cs db.
Proof.
  induction cs as [|c cs IH]; intros db seen; cbn [run run_calls fold_left]; [reflexivity|].
  apply IH.
Qed.

Lemma findUnique_None_fresh (tn : string) (db : DB) :
  Prisma.shipment_findUnique tn db = None ->
  ~ In tn (map Shipment.trackingNumber (shipments db)).
Proof.
  unfold Prisma.shipment_findUnique. intros F Hin.
  apply in_map_iff in Hin. destruct Hin as (s & E & Hs).
  pose proof (find_none _ _ F s Hs) as H. unfold Prisma.has_tn in H.
  rewrite E, String.eqb_refl in H. discriminate.
Qed.

Lemma generateUnique_well_formed (fuel : nat) (r r' : Nanoid.Rng) (db : DB) (tn : string) :
  TrackingService.generateUniqueTrackingNumber fuel r db = (Ok tn, r') -> well_formed tn.
Proof.
  unfold TrackingService.generateUniqueTrackingNumber. intros H.
  destruct (TrackingService.allocate fuel fuel 0 r db) as [[o n] r1] eqn:E.
  inversion H; subst. eapply allocate_well_formed; eassumption.
Qed.

Lemma log_of_unchanged (i : nat) (db : DB) (e : TrackingEvent.t)
      (u : list string) (l : list Lead.t) (sh : list Shipment.t) (n : nat)
      (mn mx : Date) :
  TrackingEvent.shipmentId e <> i ->
  log_of i {| users := u; leads := l; shipments := sh;
              events := events db ++ [e]; nextId := n;
              minDate := mn; maxDate := mx |}
  = log_of i db.
Proof.
  intros H. unfold log_of. cbn [events]. rewrite filter_app. cbn [filter].
  destruct (Nat.eqb_spec (TrackingEvent.shipmentId e) i); [contradiction|].
  apply app_nil_r.
Qed.

Lemma log_of_extended (db : DB) (e : TrackingEvent.t)
      (u : list string) (l : list Lead.t) (sh : list Shipment.t) (n : nat)
      (mn mx : Date) :
  log_of (TrackingEvent.shipmentId e)
    {| users := u; leads := l; shipments := sh; events := events db ++ [e]; nextId := n;
              minDate := mn; maxDate := mx |}
  = log_of (TrackingEvent.shipmentId e) db ++ [e].
Proof.
  unfold log_of. cbn [events]. rewrite filter_app. cbn [filter].
  now rewrite Nat.eqb_refl.
Qed.

Lemma filter_none {A} (p : A -> bool) (l : list A) :
  (forall x, In x l -> p x = false) -> filter p l = [].
Proof.
  induction l as [|a l IH]; intros H; cbn [filter]; [reflexivity|].
  rewrite (H a (or_introl eq_refl)). apply IH. intros x Hx. apply H. now right.
Qed.

Lemma Consistent_initial (db : DB) :
  shipments db = [] -> events db = [] -> Consistent db.
Proof.
  intros Hs He. unfold Consistent. rewrite Hs, He. cbn.
  split; [constructor|]. split; [constructor|].
  repeat split; intros; contradiction.
Qed.

Lemma Consistent_created (db : DB) (s : Shipment.t) :
  Consistent db ->
  Shipment.id s = nextId db ->
  Prisma.shipment_findUnique (Shipment.trackingNumber s) db = None ->
  well_formed (Shipment.trackingNumber s) ->
  Shipment.status s = PENDING ->
  Consistent {| users := users db; leads := leads db;
                shipments := shipments db ++ [s];
                events := events db; nextId := S (nextId db);
                minDate := minDate db; maxDate := maxDate db |}.
Proof.
  intros (N & T & B & R & W & L) Hid Hfree Hwf Hst.
  assert (Hnolog : log_of (Shipment.id s) db = []).
  { unfold log_of. apply filter_none.
    intros e He. destruct (Nat.eqb_spec (TrackingEvent.shipmentId e) (Shipment.id s)) as [E|E];
      [|reflexivity].
    exfalso. destruct (R e He) as (z & Hz & Ez). apply B in Hz. lia. }
  unfold Consistent. cbn [shipments events nextId].
  split.
  { rewrite map_app. cbn [map]. apply NoDup_app; [exact N | repeat constructor; intros [] |].
    intros i Hi [<-|[]]. apply in_map_iff in Hi. destruct Hi as (z & Ez & Hz).
    apply B in Hz. lia. }
  split.
  { rewrite map_app. cbn [map]. apply NoDup_app; [exact T | repeat constructor; intros [] |].
    intros t Ht [<-|[]]. exact (findUnique_None_fresh _ _ Hfree Ht). }
  split.
  { intros z Hz. apply in_app_iff in Hz. destruct Hz as [Hz|[<-|[]]];
      [apply B in Hz; lia | lia]. }
  split.
  { intros e He. destruct (R e He) as (z & Hz & Ez). exists z. split; [|exact Ez].
    apply in_app_iff. now left. }
  split.
  { intros z Hz. apply in_app_iff in Hz. destruct Hz as [Hz|[<-|[]]];
      [now apply W | exact Hwf]. }
  intros z Hz. apply in_app_iff in Hz.
  change (log_of (Shipment.id z)
            {| users := users db; leads := leads db; shipments := shipments db ++ [s];
               events := events db; nextId := S (nextId db);
               minDate := minDate db; maxDate := maxDate db |})
    with (log_of (Shipment.id z) db).
  destruct Hz as [Hz|[<-|[]]]; [now apply L|].
  rewrite Hnolog. exact Hst.
Qed.

Lemma Consistent_updated (db : DB) (s : Shipment.t) (l1 l2 : list Shipment.t)
      (now : Date) (st : TrackingStatus) (data : TrackingService.UpdateStatusData) :
  Consistent db ->
  shipments db = l1 ++ s :: l2 ->
  Consistent {| users := users db; leads := leads db;
                shipments := l1 ++ status_row now st data s :: l2;
                events := events db ++ [status_event now st data s db];
                nextId := S (nextId db);
                minDate := minDate db; maxDate := maxDate db |}.
Proof.
  intros (N & T & B & R & W & L) Hdb.
  set (s' := status_row now st data s).
  set (e := status_event now st data s db).
  assert (Hs : In s (shipments db)) by (rewrite Hdb; apply in_elt).
  assert (Hin' : forall z, In z (l1 ++ s' :: l2) -> z = s' \/ (In z (shipments db) /\ z <> s)).
  { intros z Hz. rewrite Hdb in N.
    apply in_app_iff in Hz. destruct Hz as [Hz|[<-|Hz]]; [right | now left | right].
    - split; [rewrite Hdb; apply in_app_iff; now left|].
      intros ->. rewrite map_app in N. cbn [map] in N. apply NoDup_remove_2 in N.
      apply N. apply in_app_iff. left. now apply in_map.
    - split; [rewrite Hdb; apply in_app_iff; right; now right|].
      intros ->. rewrite map_app in N. cbn [map] in N. apply NoDup_remove_2 in N.
      apply N. apply in_app_iff. right. now apply in_map. }
  unfold Consistent. cbn [shipments events nextId].
  split; [rewrite Hdb in N; rewrite map_app in *; exact N|].
  split; [rewrite Hdb in T; rewrite map_app in *; exact T|].
  split.
  { intros z Hz. destruct (Hin' z Hz) as [->|[Hz' _]].
    - apply B in Hs. unfold s'. rewrite status_row_id. lia.
    - apply B in Hz'. lia. }
  split.
  { intros x Hx. apply in_app_iff in Hx. destruct Hx as [Hx|[<-|[]]].
    - destruct (R x Hx) as (z & Hz & Ez). rewrite Hdb in Hz.
      apply in_app_iff in Hz. destruct Hz as [Hz|[<-|Hz]].
      + exists z. split; [apply in_app_iff; now left | exact Ez].
      + exists s'. split; [apply in_elt | exact Ez].
      + exists z. split; [apply in_app_iff; right; now right | exact Ez].
    - exists s'. split; [apply in_elt | reflexivity]. }
  split.
  { intros z Hz. destruct (Hin' z Hz) as [->|[Hz' _]]; [exact (W s Hs) | exact (W z Hz')]. }
  intros z Hz. destruct (Hin' z Hz) as [->|[Hz' Hne]].
  - change (Shipment.id s') with (TrackingEvent.shipmentId e).
    rewrite log_of_extended, map_app. cbn [map]. rewrite last_last. reflexivity.
  - rewrite log_of_unchanged; [now apply L|].
    cbn. intros E. apply Hne. symmetry. exact (same_id_same_row _ s z N Hs Hz' E).
Qed.

Lemma run_call_Consistent (c : call) (db : DB) :
  Consistent db -> Consistent (run_call c db).
Proof.
  intros I. destruct c as [fuel now data r | now tn st data | now leadId data];
    cbn [run_call].
  - destruct (TrackingService.createShipment fuel now data r db) as [[o r'] db'] eqn:Ec.
    cbn [snd]. destruct o as [s|e|].
    + apply createShipment_inv in Ec. destruct Ec as (G & F & Es & ->).
      apply Consistent_created; try assumption.
      * rewrite Es. reflexivity.
      * eapply generateUnique_well_formed; eassumption.
      * rewrite Es. reflexivity.
    + apply createShipment_not_created in Ec; [now subst db'|reflexivity].
    + apply createShipment_not_created in Ec; [now subst db'|reflexivity].
  - destruct (TrackingService.updateShipmentStatus now tn st data db) as [o db'] eqn:Eu.
    cbn [snd]. destruct o as [s'|e|].
    + apply updateShipmentStatus_Ok in Eu.
      destruct Eu as (s & l1 & l2 & _ & E & _ & _ & _ & _ & ->).
      now apply Consistent_updated.
    + apply updateShipmentStatus_not_Ok in Eu; [now subst db'|reflexivity].
    + apply updateShipmentStatus_not_Ok in Eu; [now subst db'|reflexivity].
  - rewrite convertToShipment_cases. exact I.
Qed.

Lemma run_calls_Consistent (cs : list call) : forall db,
  Consistent db -> Consistent (run_calls cs db).
Proof.
  induction cs as [|c cs IH]; intros db I; cbn [run_calls fold_left]; [exact I|].
  apply IH. now apply run_call_Consistent.
Qed.

Lemma find_by_tracking_number (db : DB) (s : Shipment.t) :
  NoDup (map Shipment.trackingNumber (shipments db)) ->
  In s (shipments db) ->
  Prisma.shipment_findUnique (Shipment.trackingNumber s) db = Some s.
Proof.
  unfold Prisma.shipment_findUnique. intros N Hs.
  induction (shipments db) as [|a l IH]; [contradiction|].
  cbn [map] in N. inversion N as [|? ? Ha N']; subst.
  cbn [find]. unfold Prisma.has_tn at 1.
  destruct (String.eqb_spec (Shipment.trackingNumber a) (Shipment.trackingNumber s)) as [E|E].
  - destruct Hs as [->|Hs]; [reflexivity|].
    exfalso. apply Ha. rewrite E. now apply in_map.
  - destruct Hs as [->|Hs]; [contradiction|]. now apply IH.
Qed.

(** X1: whatever calls were made since the store held no shipment, no two
    stored shipments share a tracking number or an identifier, and every
    stored tracking number has the format of the allocator. *)
Theorem tracking_numbers_unique (db0 : DB) (cs : list call) :
  shipments db0 = [] -> events db0 = [] ->
  NoDup (map Shipment.trackingNumber (shipments (run_calls cs db0))) /\
  NoDup (map Shipment.id (shipments (run_calls cs db0))) /\
  (forall s, In s (shipments (run_calls cs db0)) ->
             well_formed (Shipment.trackingNumber s) /\
             Prisma.shipment_findUnique (Shipment.trackingNumber s) (run_calls cs db0)
             = Some s).
Proof.
  intros Hs He.
  pose proof (run_calls_Consistent cs db0 (Consistent_initial db0 Hs He))
    as (N & T & _ & _ & W & _).
  split; [exact T|]. split; [exact N|].
  intros s Hin. split; [now apply W | now apply find_by_tracking_number].
Qed.

Lemma tracking_numbers_unique_witness :
  NoDup (map Shipment.trackingNumber (shipments (run_calls history db_leads))) /\
  NoDup (map Shipment.id (shipments (run_calls history db_leads))) /\
  (forall s, In s (shipments (run_calls history db_leads)) ->
             well_formed (Shipment.trackingNumber s) /\
             Prisma.shipment_findUnique (Shipment.trackingNumber s)
               (run_calls history db_leads)
             = Some s).
Proof.
  apply (tracking_numbers_unique db_leads history); reflexivity.
Defined.

(** X2: whatever calls were made since the two tracking tables were empty,
    every stored event belongs to exactly one stored shipment, and
    [getShipment] on that shipment's tracking number returns the shipment
    with the event among its events. *)
Theorem events_belong_to_shipments (db0 : DB) (cs : list call) :
  shipments db0 = [] -> events db0 = [] ->
  forall e, In e (events (run_calls cs db0)) ->
    exists s evs,
      In s (shipments (run_calls cs db0)) /\
      Shipment.id s = TrackingEvent.shipmentId e /\
      (forall s', In s' (shipments (run_calls cs db0)) ->
                  Shipment.id s' = TrackingEvent.shipmentId e -> s' = s) /\
      TrackingService.getShipment (Shipment.trackingNumber s) (run_calls cs db0)
      = Some (s, evs) /\
      In e evs.
Proof.
  intros Hs He e Hin.
  pose proof (run_calls_Consistent cs db0 (Consistent_initial db0 Hs He))
    as (N & T & _ & R & _ & _).
  destruct (R e Hin) as (s & Hs' & E).
  exists s, (Prisma.events_of (Shipment.id s) (run_calls cs db0)).
  split; [exact Hs'|]. split; [exact E|]. split.
  { intros s' Hs'' E'. apply (same_id_same_row _ s' s N Hs'' Hs'). congruence. }
  split.
  { unfold TrackingService.getShipment.
    rewrite (find_by_tracking_number _ s T Hs'). reflexivity. }
  unfold Prisma.events_of.
  eapply Permutation_in; [apply sort_desc_perm|].
  apply filter_In. split; [exact Hin|]. rewrite E. apply Nat.eqb_refl.
Qed.

Lemma events_belong_to_shipments_witness :
  exists s evs,
    In s (shipments (run_calls history db_leads)) /\
    Shipment.id s = TrackingEvent.shipmentId event_delivered /\
    (forall s', In s' (shipments (run_calls history db_leads)) ->
                Shipment.id s' = TrackingEvent.shipmentId event_delivered -> s' = s) /\
    TrackingService.getShipment (Shipment.trackingNumber s) (run_calls history db_leads)
    = Some (s, evs) /\
    In event_delivered evs.
Proof.
  apply (events_belong_to_shipments db_leads history); [reflexivity | reflexivity |].
  vm_compute. left. reflexivity.
Defined.

(** X3: whatever calls were made since the two tracking tables were empty,
    the status of a stored shipment is the status of the event inserted
    last for it, and PENDING when no event was inserted for it. *)
Theorem status_is_last_event (db0 : DB) (cs : list call) :
  shipments db0 = [] -> events db0 = [] ->
  forall s, In s (shipments (run_calls cs db0)) ->
    Shipment.status s
    = last (map TrackingEvent.status (log_of (Shipment.id s) (run_calls cs db0))) PENDING /\
    (log_of (Shipment.id s) (run_calls cs db0) = [] -> Shipment.status s = PENDING).
Proof.
  intros Hs He s Hin.
  pose proof (run_calls_Consistent cs db0 (Consistent_initial db0 Hs He))
    as (_ & _ & _ & _ & _ & L).
  split; [now apply L|]. intros E. rewrite (L s Hin), E. reflexivity.
Qed.

Lemma status_is_last_event_witness :
  Shipment.status row_final
  = last (map TrackingEvent.status
            (log_of (Shipment.id row_final) (run_calls history db_leads))) PENDING /\
  (log_of (Shipment.id row_final) (run_calls history db_leads) = [] ->
   Shipment.status row_final = PENDING).
Proof.
  apply (status_is_last_event db_leads history); [reflexivity | reflexivity |].
  vm_compute. left. reflexivity.
Defined.

Lemma status_row_fixed_columns now st data s :
  fixed_columns (status_row now st data s) = fixed_columns s.
Proof. reflexivity. Qed.

Lemma run_call_append_only (c : call) (db : DB) :
  exists ev sh,
    events (run_call c db) = events db ++ ev /\
    map fixed_columns (shipments (run_call c db))
    = map fixed_columns (shipments db) ++ sh /\
    users (run_call c db) = users db.
Proof.
  destruct c as [fuel now data r | now tn st data | now leadId data]; cbn [run_call].
  - destruct (TrackingService.createShipment fuel now data r db) as [[o r'] db'] eqn:Ec.
    cbn [snd]. destruct o as [s|e|].
    + apply createShipment_inv in Ec. destruct Ec as (_ & _ & _ & ->).
      exists [], [fixed_columns s]. cbn [events shipments users].
      rewrite app_nil_r, map_app. repeat split.
    + apply createShipment_not_created in Ec; [subst db'|reflexivity].
      exists [], []. now rewrite !app_nil_r.
    + apply createShipment_not_created in Ec; [subst db'|reflexivity].
      exists [], []. now rewrite !app_nil_r.
  - destruct (TrackingService.updateShipmentStatus now tn st data db) as [o db'] eqn:Eu.
    cbn [snd]. destruct o as [s'|e|].
    + apply updateShipmentStatus_Ok in Eu.
      destruct Eu as (s & l1 & l2 & _ & E & _ & _ & _ & _ & ->).
      cbn [events shipments users].
      exists [status_event now st data s db], [].
      rewrite E, !map_app, app_nil_r. cbn [map]. rewrite status_row_fixed_columns.
      repeat split.
    + apply updateShipmentStatus_not_Ok in Eu; [subst db'|reflexivity].
      exists [], []. now rewrite !app_nil_r.
    + apply updateShipmentStatus_not_Ok in Eu; [subst db'|reflexivity].
      exists [], []. now rewrite !app_nil_r.
  - rewrite convertToShipment_cases. exists [], []. now rewrite !app_nil_r.
Qed.

(** X4: no call of the services deletes, rewrites or reorders a stored
    event, deletes a shipment, or changes a shipment's identifier, tracking
    number, carrier data, estimated delivery, creation time or owner: after
    any sequence of calls, the event table starts with the events it held
    and the shipment table with the same shipments in these columns. *)
Theorem tables_append_only (cs : list call) (db : DB) :
  exists ev sh,
    events (run_calls cs db) = events db ++ ev /\
    map fixed_columns (shipments (run_calls cs db))
    = map fixed_columns (shipments db) ++ sh /\
    users (run_calls cs db) = users db.
Proof.
  revert db. induction cs as [|c cs IH]; intros db; cbn [run_calls fold_left].
  - exists [], []. now rewrite !app_nil_r.
  - destruct (run_call_append_only c db) as (ev1 & sh1 & E1 & S1 & U1).
    destruct (IH (run_call c db)) as (ev2 & sh2 & E2 & S2 & U2).
    unfold run_calls in *.
    exists (ev1 ++ ev2), (sh1 ++ sh2).
    rewrite E2, S2, U2, E1, S1, U1, !app_assoc. repeat split.
Qed.

(** ** [createShipment] and [getShipment] *)


Lemma find_replaced {A} (p : A -> bool) (l1 l2 : list A) (x y : A) :
  p x = false -> p y = false -> find p (l1 ++ y :: l2) = find p (l1 ++ x :: l2).
Proof.
  intros Hx Hy. induction l1 as [|a l1 IH]; cbn [app find].
  - now rewrite Hx, Hy.
  - destruct (p a); [reflexivity | exact IH].
Qed.

Lemma has_tn_other (tn tn' : string) (s : Shipment.t) :
  Prisma.has_tn tn s = true -> tn' <> tn -> Prisma.has_tn tn' s = false.
Proof.
  unfold Prisma.has_tn. intros H Hne. apply String.eqb_eq in H.
  apply String.eqb_neq. congruence.
Qed.







Example create_with_long_carrier :
  fst (fst (TrackingService.createShipment 11 1500%Z long_carrier_data rng_counting db_zero))
  = Throw P2000_ValueTooLong.
Proof. vm_compute. reflexivity. Qed.

Example create_without_date :
  fst (fst (TrackingService.createShipment 11 1500%Z
              {| TrackingService.cs_userId := None;
                 TrackingService.cs_carrier := None;
                 TrackingService.cs_carrierTrackingNumber := None;
                 TrackingService.cs_estimatedDelivery := Some no_date |}
              rng_counting db_zero))
  = Throw PrismaValidationError.
Proof. vm_compute. reflexivity. Qed.

Example create_all_candidates_taken :
  TrackingService.createShipment 11 1500%Z no_data rng_zero db_zero
  = (Throw AllocationExhausted, Nanoid.rng_drop 360 rng_zero, db_zero).
Proof. vm_compute. reflexivity. Qed.

Example create_for_unknown_user :
  fst (fst (TrackingService.createShipment 11 1000%Z
              {| TrackingService.cs_userId := Some "nobody";
                 TrackingService.cs_carrier := None;
                 TrackingService.cs_carrierTrackingNumber := None;
                 TrackingService.cs_estimatedDelivery := None |}
              rng_counting db_zero))
  = Throw P2003_ForeignKeyConstraint.
Proof. vm_compute. reflexivity. Qed.

(** X7: [getShipment] returns nothing exactly when no stored shipment
    carries the tracking number; otherwise it returns a stored shipment
    with that tracking number, together with the stored events of that
    shipment, all of them and no others, none followed by an event with a
    later timestamp. *)
Theorem getShipment_spec (tn : string) (db : DB) :
  match TrackingService.getShipment tn db with
  | None => forall s, In s (shipments db) -> Shipment.trackingNumber s <> tn
  | Some (s, evs) =>
      In s (shipments db) /\
      Shipment.trackingNumber s = tn /\
      Permutation evs (log_of (Shipment.id s) db) /\
      Sorted (newer_first TrackingEvent.timestamp) evs /\
      (forall e, In e evs <->
                 In e (events db) /\ TrackingEvent.shipmentId e = Shipment.id s)
  end.
Proof.
  unfold TrackingService.getShipment, Prisma.shipment_findUnique.
  destruct (find (Prisma.has_tn tn) (shipments db)) as [s|] eqn:F.
  - apply find_some in F. destruct F as [Hs Ht].
    split; [exact Hs|]. split; [now apply String.eqb_eq in Ht|].
    unfold Prisma.events_of. fold (log_of (Shipment.id s) db).
    split; [symmetry; apply sort_desc_perm|].
    split; [apply sort_desc_sorted|].
    intros e. split.
    + intros He. eapply Permutation_in in He; [|symmetry; apply sort_desc_perm].
      unfold log_of in He. apply filter_In in He. destruct He as [H1 H2].
      split; [exact H1 | now apply Nat.eqb_eq].
    + intros [H1 H2]. eapply Permutation_in; [apply sort_desc_perm|].
      unfold log_of. apply filter_In. split; [exact H1 | now apply Nat.eqb_eq].
  - intros s Hs E. pose proof (find_none _ _ F s Hs) as H.
    unfold Prisma.has_tn in H. rewrite E, String.eqb_refl in H. discriminate.
Qed.

(** ** [updateShipmentStatus] on other shipments, and twice *)

(** X8: on a store the services maintain, [updateShipmentStatus] on one
    tracking number leaves what [getShipment] returns for every other
    tracking number as it was, whether it succeeds or not, and never touches
    the users and the leads. *)
Theorem updateShipmentStatus_frame (now : Date) (tn : string) (st : TrackingStatus)
        (data : TrackingService.UpdateStatusData) (db db' : DB)
        (o : outcome Shipment.t) :
  Consistent db ->
  TrackingService.updateShipmentStatus now tn st data db = (o, db') ->
  (forall tn', tn' <> tn ->
               TrackingService.getShipment tn' db' = TrackingService.getShipment tn' db) /\
  users db' = users db /\ leads db' = leads db.
Proof.
  intros (N & _) H. destruct o as [s'|e|].
  2,3: apply updateShipmentStatus_not_Ok in H; [subst db'; repeat split | reflexivity].
  apply updateShipmentStatus_Ok in H.
  destruct H as (s & l1 & l2 & F & E & Hl1 & Ps & _ & _ & ->).
  split; [|split; reflexivity].
  intros tn' Hne.
  assert (Hs : In s (shipments db)) by (rewrite E; apply in_elt).
  assert (Hfind : Prisma.shipment_findUnique tn'
                    {| users := users db; leads := leads db;
                       shipments := l1 ++ status_row now st data s :: l2;
                       events := events db ++ [status_event now st data s db];
                       nextId := S (nextId db);
                       minDate := minDate db; maxDate := maxDate db |}
                  = Prisma.shipment_findUnique tn' db).
  { unfold Prisma.shipment_findUnique. cbn [shipments]. rewrite E.
    apply find_replaced; eapply has_tn_other; eassumption. }
  unfold TrackingService.getShipment. rewrite Hfind.
  destruct (Prisma.shipment_findUnique tn' db) as [z|] eqn:Fz; [|reflexivity].
  unfold Prisma.shipment_findUnique in Fz. apply find_some in Fz.
  destruct Fz as [Hz Pz].
  assert (Hzs : Shipment.id s <> Shipment.id z).
  { intros Eid. pose proof (same_id_same_row _ s z N Hs Hz Eid) as ->.
    rewrite (has_tn_other tn tn' z Ps Hne) in Pz. discriminate. }
  unfold Prisma.events_of.
  change (filter (fun e => Nat.eqb (TrackingEvent.shipmentId e) (Shipment.id z))
            (events {| users := users db; leads := leads db;
                       shipments := l1 ++ status_row now st data s :: l2;
                       events := events db ++ [status_event now st data s db];
                       nextId := S (nextId db);
                       minDate := minDate db; maxDate := maxDate db |}))
    with (log_of (Shipment.id z)
            {| users := users db; leads := leads db;
               shipments := l1 ++ status_row now st data s :: l2;
               events := events db ++ [status_event now st data s db];
               nextId := S (nextId db);
               minDate := minDate db; maxDate := maxDate db |}).
  rewrite log_of_unchanged by exact Hzs. reflexivity.
Qed.

Lemma updateShipmentStatus_frame_witness :
  TrackingService.getShipment tn_other db_pair = Some (row_other, [event_other]) /\
  TrackingService.getShipment tn_other db_pair_transit
  = TrackingService.getShipment tn_other db_pair /\
  TrackingService.getShipment tn_zero db_pair_transit
  <> TrackingService.getShipment tn_zero db_pair /\
  users db_pair_transit = users db_pair /\ leads db_pair_transit = leads db_pair.
Proof.
  split; [vm_compute; reflexivity|].
  destruct (updateShipmentStatus_frame 2000%Z tn_zero IN_TRANSIT (departed 100%Z)
              db_pair db_pair_transit
              (fst (TrackingService.updateShipmentStatus 2000%Z tn_zero IN_TRANSIT
                      (departed 100%Z) db_pair))) as (H & U & L).
  - apply run_calls_Consistent. apply Consistent_initial; reflexivity.
  - vm_compute. reflexivity.
  - split; [apply H; discriminate|].
    split; [vm_compute; discriminate|]. split; [exact U | exact L].
Defined.



(** ** More on [listShipments] *)

Lemma in_firstn {A} (n : nat) (l : list A) (x : A) : In x (firstn n l) -> In x l.
Proof.
  intros H. rewrite <- (firstn_skipn n l). apply in_or_app. now left.
Qed.

Lemma in_skipn {A} (n : nat) (l : list A) (x : A) : In x (skipn n l) -> In x l.
Proof.
  intros H. rewrite <- (firstn_skipn n l). apply in_or_app. now right.
Qed.

Lemma paginate_incl {A} (skip take : Z) (l rows : list A) :
  Prisma.paginate skip take l = Ok rows -> incl rows l.
Proof.
  unfold Prisma.paginate. destruct (skip <? 0)%Z; [discriminate|].
  destruct (0 <=? take)%Z; intros H; injection H as <-; intros x Hx.
  - apply in_firstn in Hx. now apply in_skipn in Hx.
  - apply in_rev in Hx. apply in_firstn in Hx. apply in_skipn in Hx.
    now apply in_rev.
Qed.

Lemma sort_desc_head_max {A} (key : A -> Z) (l rest : list A) (e : A) :
  Prisma.sort_desc key l = e :: rest ->
  forall x, In x l -> (key x <= key e)%Z.
Proof.
  intros E x Hx.
  pose proof (sort_desc_sorted key l) as S. rewrite E in S.
  assert (T : forall a b c : A,
             newer_first key a b -> newer_first key b c -> newer_first key a c)
    by (unfold newer_first; intros; lia).
  apply Sorted_extends in S; [|exact T].
  eapply Permutation_in in Hx; [|apply sort_desc_perm]. rewrite E in Hx.
  destruct Hx as [<-|Hx]; [lia|].
  eapply Forall_forall in S; [|exact Hx]. exact S.
Qed.

(** X10: every row [listShipments] returns is a matching shipment with at
    most one event; it has none exactly when no event is stored for the
    shipment, and otherwise the one it has is a stored event of that
    shipment whose timestamp no other event of the shipment exceeds. *)
Theorem listShipments_latest_event (params : TrackingService.ListParams) (db : DB)
        (res : TrackingService.ListResult) (s : Shipment.t)
        (evs : list TrackingEvent.t) :
  TrackingService.listShipments params db = Ok res ->
  In (s, evs) (TrackingService.lr_shipments res) ->
  In s (matching params db) /\
  List.length evs <= 1 /\
  (evs = [] <-> log_of (Shipment.id s) db = []) /\
  (forall e, In e evs ->
             In e (events db) /\
             TrackingEvent.shipmentId e = Shipment.id s /\
             forall e', In e' (events db) ->
                        TrackingEvent.shipmentId e' = Shipment.id s ->
                        (TrackingEvent.timestamp e' <= TrackingEvent.timestamp e)%Z).
Proof.
  unfold TrackingService.listShipments. fold (matching params db).
  destruct (Prisma.paginate _ _ _) as [rows| |] eqn:P; try discriminate.
  intros H Hin. injection H as <-. cbn [TrackingService.lr_shipments] in Hin.
  apply in_map_iff in Hin. destruct Hin as (z & Ez & Hz).
  unfold TrackingService.with_latest_event in Ez. injection Ez as -> <-.
  apply paginate_incl in P. apply P in Hz.
  eapply Permutation_in in Hz; [|symmetry; apply sort_desc_perm].
  split; [exact Hz|].
  unfold Prisma.events_of. fold (log_of (Shipment.id s) db).
  pose proof (sort_desc_perm TrackingEvent.timestamp (log_of (Shipment.id s) db)) as Pm.
  destruct (Prisma.sort_desc TrackingEvent.timestamp (log_of (Shipment.id s) db))
    as [|e rest] eqn:E.
  - apply Permutation_sym, Permutation_nil in Pm.
    split; [cbn; lia|]. split; [split; intros _; [exact Pm | reflexivity]|].
    intros e [].
  - cbn [firstn]. split; [cbn; lia|]. split.
    + split; [discriminate|]. intros L. rewrite L in Pm.
      apply Permutation_nil in Pm. discriminate.
    + intros e0 [<-|[]].
      assert (He : In e (log_of (Shipment.id s) db)).
      { eapply Permutation_in; [symmetry; exact Pm | now left]. }
      unfold log_of in He. apply filter_In in He. destruct He as [H1 H2].
      split; [exact H1|]. split; [now apply Nat.eqb_eq|].
      intros e' H1' H2'. eapply sort_desc_head_max; [exact E|].
      unfold log_of. apply filter_In. split; [exact H1' | now apply Nat.eqb_eq].
Qed.

Lemma listShipments_latest_event_witness :
  In row_final (matching no_filter (run_calls history db_leads)) /\
  List.length [event_last] <= 1 /\
  ([event_last] = [] <-> log_of (Shipment.id row_final) (run_calls history db_leads) = []) /\
  (forall e, In e [event_last] ->
             In e (events (run_calls history db_leads)) /\
             TrackingEvent.shipmentId e = Shipment.id row_final /\
             forall e', In e' (events (run_calls history db_leads)) ->
                        TrackingEvent.shipmentId e' = Shipment.id row_final ->
                        (TrackingEvent.timestamp e' <= TrackingEvent.timestamp e)%Z).
Proof.
  apply (listShipments_latest_event no_filter (run_calls history db_leads) listing_final).
  - vm_compute. reflexivity.
  - right. left. reflexivity.
Defined.

Lemma firstn_then_next {A} : forall (a b : nat) (l : list A),
  firstn a l ++ firstn b (skipn a l) = firstn (a + b) l.
Proof.
  induction a as [|a IH]; intros b l; [reflexivity|].
  destruct l as [|x l]; cbn [firstn skipn Nat.add app].
  - now rewrite firstn_nil.
  - now rewrite IH.
Qed.

Lemma page_rows_slice (userId : option string) (status : option TrackingStatus)
      (limit : Z) (db : DB) (p : nat) :
  (1 <= limit)%Z -> 1 <= p ->
  page_rows userId status limit db p
  = map (TrackingService.with_latest_event db)
      (firstn (Z.to_nat limit)
         (skipn ((p - 1) * Z.to_nat limit)
            (Prisma.sort_desc Shipment.createdAt
               (matching {| TrackingService.lp_userId := userId;
                            TrackingService.lp_status := status;
                            TrackingService.lp_page := None;
                            TrackingService.lp_limit := None |} db)))).
Proof.
  intros Hl Hp. unfold page_rows, TrackingService.listShipments, Prisma.paginate, matching.
  cbn [TrackingService.lp_page TrackingService.lp_limit TrackingService.lp_userId
         TrackingService.lp_status].
  destruct ((Z.of_nat p - 1) * limit <? 0)%Z eqn:E1; [apply Z.ltb_lt in E1; nia|].
  destruct (0 <=? limit)%Z eqn:E2; [|apply Z.leb_gt in E2; lia].
  cbn [TrackingService.lr_shipments].
  replace (Z.to_nat ((Z.of_nat p - 1) * limit)) with ((p - 1) * Z.to_nat limit);
    [reflexivity|].
  rewrite Z2Nat.inj_mul by lia. f_equal. lia.
Qed.

Lemma NoDup_by_nodup (l : list Z) : nodup Z.eq_dec l = l -> NoDup l.
Proof. intros <-. apply NoDup_nodup. Qed.

(** X11: when no two matching shipments were created at the same time,
    with a limit of at least 1, the pages 1, 2, ... of a listing, put one
    after the other, are the matching shipments in creation order, newest
    first, each exactly once, as soon as the pages read are enough to hold
    them all; and every page past the last one is empty. *)
Theorem all_pages_cover (userId : option string) (status : option TrackingStatus)
        (limit : Z) (db : DB) (n : nat) :
  (1 <= limit)%Z ->
  NoDup (map Shipment.createdAt
           (matching {| TrackingService.lp_userId := userId;
                        TrackingService.lp_status := status;
                        TrackingService.lp_page := None;
                        TrackingService.lp_limit := None |} db)) ->
  (Z.of_nat (List.length (matching {| TrackingService.lp_userId := userId;
                                      TrackingService.lp_status := status;
                                      TrackingService.lp_page := None;
                                      TrackingService.lp_limit := None |} db))
   <= Z.of_nat n * limit)%Z ->
  all_pages userId status limit db n
  = map (TrackingService.with_latest_event db)
      (Prisma.sort_desc Shipment.createdAt
         (matching {| TrackingService.lp_userId := userId;
                      TrackingService.lp_status := status;
                      TrackingService.lp_page := None;
                      TrackingService.lp_limit := None |} db))
  /\ (forall p, n < p -> page_rows userId status limit db p = []).
Proof.
  intros Hl _ Hn.
  set (ordered := Prisma.sort_desc Shipment.createdAt
                    (matching {| TrackingService.lp_userId := userId;
                                 TrackingService.lp_status := status;
                                 TrackingService.lp_page := None;
                                 TrackingService.lp_limit := None |} db)) in *.
  assert (Hlen : List.length ordered
                 = List.length (matching {| TrackingService.lp_userId := userId;
                                            TrackingService.lp_status := status;
                                            TrackingService.lp_page := None;
                                            TrackingService.lp_limit := None |} db)).
  { symmetry. apply Permutation_length, sort_desc_perm. }
  assert (Hfit : List.length ordered <= n * Z.to_nat limit) by nia.
  assert (Hall : forall k,
             flat_map (page_rows userId status limit db) (seq 1 k)
             = map (TrackingService.with_latest_event db)
                 (firstn (k * Z.to_nat limit) ordered)).
  { induction k as [|k IH]; [reflexivity|].
    rewrite seq_S, flat_map_app, IH. cbn [flat_map]. rewrite app_nil_r.
    rewrite page_rows_slice by lia. fold ordered.
    rewrite <- map_app. f_equal.
    replace (1 + k - 1) with k by lia.
    rewrite firstn_then_next. f_equal. lia. }
  split.
  - unfold all_pages. rewrite Hall. f_equal. apply firstn_all2. exact Hfit.
  - intros p Hp. rewrite page_rows_slice by lia. fold ordered.
    rewrite skipn_all2; [now rewrite firstn_nil | nia].
Qed.

Lemma all_pages_cover_witness :
  all_pages None (Some IN_TRANSIT) 5%Z db_twelve 3
  = map (TrackingService.with_latest_event db_twelve)
      (Prisma.sort_desc Shipment.createdAt
         (matching {| TrackingService.lp_userId := None;
                      TrackingService.lp_status := Some IN_TRANSIT;
                      TrackingService.lp_page := None;
                      TrackingService.lp_limit := None |} db_twelve))
  /\ (forall p, 3 < p -> page_rows None (Some IN_TRANSIT) 5%Z db_twelve p = []).
Proof.
  apply (all_pages_cover None (Some IN_TRANSIT) 5%Z db_twelve 3).
  - lia.
  - apply NoDup_by_nodup. vm_compute. reflexivity.
  - vm_compute. discriminate.
Defined.

(** X12: with a limit of 0 [listShipments] succeeds for every page and
    every filter, returns no row and still counts the matching shipments,
    and its [totalPages] is no number: Infinity when a shipment matches, NaN
    when none does. *)
Theorem listShipments_limit_zero (userId : option string)
        (status : option TrackingStatus) (page : option Z) (db : DB) :
  exists res,
    TrackingService.listShipments
      {| TrackingService.lp_userId := userId;
         TrackingService.lp_status := status;
         TrackingService.lp_page := page;
         TrackingService.lp_limit := Some 0%Z |} db = Ok res /\
    TrackingService.lr_shipments res = [] /\
    TrackingService.total (TrackingService.lr_pagination res)
    = Z.of_nat (List.length (matching {| TrackingService.lp_userId := userId;
                                         TrackingService.lp_status := status;
                                         TrackingService.lp_page := page;
                                         TrackingService.lp_limit := Some 0%Z |} db)) /\
    TrackingService.totalPages (TrackingService.lr_pagination res)
    = (if existsb (TrackingService.matches userId status) (shipments db)
       then Infinity else NaN).
Proof.
  unfold TrackingService.listShipments, Prisma.paginate, matching.
  cbn [TrackingService.lp_page TrackingService.lp_limit TrackingService.lp_userId
         TrackingService.lp_status].
  rewrite Z.mul_0_r. cbn [Z.ltb Z.leb Z.compare Z.to_nat firstn map].
  eexists. split; [reflexivity|]. cbn. split; [reflexivity|]. split; [reflexivity|].
  unfold Math_ceil_div. cbn [Z.eqb].
  induction (shipments db) as [|a l IH]; [reflexivity|].
  cbn [filter existsb]. destruct (TrackingService.matches userId status a); [|exact IH].
  cbn [orb List.length]. rewrite Nat2Z.inj_succ.
  destruct (Z.succ (Z.of_nat (List.length (filter (TrackingService.matches userId status) l)))
            =? 0)%Z eqn:E; [apply Z.eqb_eq in E; lia | reflexivity].
Qed.

(** ** The handlers *)

(** X13: the handler of GET /shipments/:trackingNumber answers 404 exactly
    when no stored shipment carries the tracking number and 200 otherwise;
    with 200 the body is a stored shipment with that tracking number and
    its events, and with 404 it is the error message. *)
Theorem get_shipment_answers (tn : string) (db : DB) :
  (TrackingRoutes.statusCode (TrackingRoutes.get_shipment tn db) = 404 <->
   forall s, In s (shipments db) -> Shipment.trackingNumber s <> tn) /\
  (TrackingRoutes.statusCode (TrackingRoutes.get_shipment tn db) = 404 ->
   TrackingRoutes.body (TrackingRoutes.get_shipment tn db)
   = TrackingRoutes.ErrorJson "Shipment not found") /\
  (TrackingRoutes.statusCode (TrackingRoutes.get_shipment tn db) <> 404 ->
   TrackingRoutes.statusCode (TrackingRoutes.get_shipment tn db) = 200 /\
   exists s,
     In s (shipments db) /\ Shipment.trackingNumber s = tn /\
     TrackingRoutes.body (TrackingRoutes.get_shipment tn db)
     = TrackingRoutes.ShipmentWithEventsJson s (Prisma.events_of (Shipment.id s) db)).
Proof.
  unfold TrackingRoutes.get_shipment, TrackingService.getShipment,
    Prisma.shipment_findUnique.
  destruct (find (Prisma.has_tn tn) (shipments db)) as [s|] eqn:F;
    cbn [TrackingRoutes.statusCode TrackingRoutes.body].
  - pose proof (find_some _ _ F) as [Hs Ht]. apply String.eqb_eq in Ht.
    split; [split; [discriminate|]|split; [discriminate|]].
    + intros H. exfalso. exact (H s Hs Ht).
    + intros _. split; [reflexivity|]. exists s. repeat split; assumption.
  - split; [split; [|reflexivity]|split; [reflexivity|]].
    + intros _ s Hs E. pose proof (find_none _ _ F s Hs) as H.
      unfold Prisma.has_tn in H. rewrite E, String.eqb_refl in H. discriminate.
    + intros H. contradiction.
Qed.


Example post_status_long_location :
  TrackingRoutes.post_shipment_status parse_one_day 2000%Z tn_zero
    {| TrackingRoutes.sb_status := IN_TRANSIT;
       TrackingRoutes.sb_description := "Held at depot";
       TrackingRoutes.sb_location := Some long_location;
       TrackingRoutes.sb_timestamp := None |} db_zero
  = (Some {| TrackingRoutes.statusCode := 500;
             TrackingRoutes.body :=
               TrackingRoutes.ErrorJson "Failed to update shipment status" |},
     db_zero).
Proof. vm_compute. reflexivity. Qed.

(** X15: the handler of POST /shipments answers 200 with the created
    shipment, which is PENDING, carries a tracking number of the allocator's
    format and is the one row added to the store, or 500 with its fixed
    message and the store unchanged; an empty [estimatedDelivery] is taken
    as absent.  It does not answer only when the allocation does not
    return, and then the store is unchanged as well. *)
Theorem post_shipments_answers (Date_parse : string -> Date) (fuel : nat) (now : Date)
        (req : TrackingRoutes.CreateBody) (r r' : Nanoid.Rng) (db db' : DB)
        (resp : option TrackingRoutes.Response) :
  TrackingRoutes.post_shipments Date_parse fuel now req r db = (resp, r', db') ->
  match resp with
  | Some a =>
      (TrackingRoutes.statusCode a = 200 /\
       exists s,
         TrackingRoutes.body a = TrackingRoutes.ShipmentJson s /\
         shipments db' = shipments db ++ [s] /\ events db' = events db /\
         Shipment.status s = PENDING /\
         well_formed (Shipment.trackingNumber s) /\
         Shipment.userId s = TrackingRoutes.cb_userId req /\
         Shipment.estimatedDelivery s
         = match TrackingRoutes.cb_estimatedDelivery req with
           | Some "" => None
           | Some x => Some (Date_parse x)
           | None => None
           end)
      \/
      (TrackingRoutes.statusCode a = 500 /\
       TrackingRoutes.body a = TrackingRoutes.ErrorJson "Failed to create shipment" /\
       db' = db)
  | None => db' = db
  end.
Proof.
  unfold TrackingRoutes.post_shipments.
  set (data := {| TrackingService.cs_userId := TrackingRoutes.cb_userId req;
                  TrackingService.cs_carrier := TrackingRoutes.cb_carrier req;
                  TrackingService.cs_carrierTrackingNumber :=
                    TrackingRoutes.cb_carrierTrackingNumber req;
                  TrackingService.cs_estimatedDelivery :=
                    option_map Date_parse
                      (TrackingRoutes.truthy (TrackingRoutes.cb_estimatedDelivery req)) |}).
  destruct (TrackingService.createShipment fuel now data r db) as [[o r1] db1] eqn:Ec.
  destruct o as [s|e|]; intros H; injection H as <- <- <-.
  - left. split; [reflexivity|]. exists s. split; [reflexivity|].
    apply createShipment_inv in Ec. destruct Ec as (G & _ & Es & ->).
    split; [reflexivity|]. split; [reflexivity|].
    split; [rewrite Es; reflexivity|].
    split; [eapply generateUnique_well_formed; eassumption|].
    split; [rewrite Es; reflexivity|].
    rewrite Es. cbn [Shipment.estimatedDelivery data TrackingService.cs_estimatedDelivery].
    unfold TrackingRoutes.truthy.
    destruct (TrackingRoutes.cb_estimatedDelivery req) as [x|]; [|reflexivity].
    destruct (String.eqb_spec x ""); [subst; reflexivity|].
    destruct x; [contradiction | reflexivity].
  - right. split; [reflexivity|]. split; [reflexivity|].
    eapply createShipment_not_created; [exact Ec | reflexivity].
  - eapply createShipment_not_created; [exact Ec | reflexivity].
Qed.

Lemma post_shipments_answers_witness :
  match fst (fst (TrackingRoutes.post_shipments parse_one_day 11 1000%Z create_request
                    rng_counting db_zero)) with
  | Some a =>
      (TrackingRoutes.statusCode a = 200 /\
       exists s,
         TrackingRoutes.body a = TrackingRoutes.ShipmentJson s /\
         shipments (snd (TrackingRoutes.post_shipments parse_one_day 11 1000%Z
                           create_request rng_counting db_zero))
         = shipments db_zero ++ [s] /\
         events (snd (TrackingRoutes.post_shipments parse_one_day 11 1000%Z
                        create_request rng_counting db_zero))
         = events db_zero /\
         Shipment.status s = PENDING /\
         well_formed (Shipment.trackingNumber s) /\
         Shipment.userId s = TrackingRoutes.cb_userId create_request /\
         Shipment.estimatedDelivery s
         = match TrackingRoutes.cb_estimatedDelivery create_request with
           | Some "" => None
           | Some x => Some (parse_one_day x)
           | None => None
           end)
      \/
      (TrackingRoutes.statusCode a = 500 /\
       TrackingRoutes.body a = TrackingRoutes.ErrorJson "Failed to create shipment" /\
       snd (TrackingRoutes.post_shipments parse_one_day 11 1000%Z create_request
              rng_counting db_zero) = db_zero)
  | None =>
      snd (TrackingRoutes.post_shipments parse_one_day 11 1000%Z create_request
             rng_counting db_zero) = db_zero
  end.
Proof.
  apply (post_shipments_answers parse_one_day 11 1000%Z create_request rng_counting
           (snd (fst (TrackingRoutes.post_shipments parse_one_day 11 1000%Z create_request
                        rng_counting db_zero)))
           db_zero).
  vm_compute. reflexivity.
Defined.

Example post_shipments_created :
  option_map TrackingRoutes.statusCode
    (fst (fst (TrackingRoutes.post_shipments parse_one_day 11 1000%Z create_request
                 rng_counting db_zero)))
  = Some 200.
Proof. vm_compute. reflexivity. Qed.

(** ** [getStats] *)

(** X16: [getStats] counts every stored lead once in [totalLeads]; the new
    and the converted leads together never exceed it, and make it up
    exactly when every stored lead is new or converted. *)
Theorem getStats_bounds (db : DB) :
  totalLeads (getStats db) = List.length (leads db) /\
  newLeads (getStats db) + convertedLeads (getStats db) <= totalLeads (getStats db) /\
  (newLeads (getStats db) + convertedLeads (getStats db) = totalLeads (getStats db) <->
   forall l, In l (leads db) ->
             Lead.status l = LeadStatus.new \/ Lead.status l = LeadStatus.converted).
Proof.
  unfold getStats, lead_count. cbn [totalLeads newLeads convertedLeads].
  induction (leads db) as [|a l (IH1 & IH2 & IH3)]; cbn [filter List.length].
  - split; [reflexivity|]. split; [lia|]. split; [intros _ x []|reflexivity].
  - cbn [filter List.length] in *.
    split; [now rewrite IH1|].
    destruct (Lead.status a) eqn:Ea; cbn [LeadStatus.eqb List.length]; (split; [lia|]);
      split; intros H.
    + intros x [<-|Hx]; [now left | apply IH3; [lia | exact Hx]].
    + assert (T : forall x, In x l ->
                   Lead.status x = LeadStatus.new \/ Lead.status x = LeadStatus.converted)
        by (intros x Hx; apply H; now right).
      apply IH3 in T. lia.
    + exfalso. lia.
    + exfalso. destruct (H a (or_introl eq_refl)) as [E|E]; congruence.
    + exfalso. lia.
    + exfalso. destruct (H a (or_introl eq_refl)) as [E|E]; congruence.
    + intros x [<-|Hx]; [now right | apply IH3; [lia | exact Hx]].
    + assert (T : forall x, In x l ->
                   Lead.status x = LeadStatus.new \/ Lead.status x = LeadStatus.converted)
        by (intros x Hx; apply H; now right).
      apply IH3 in T. lia.
    + exfalso. lia.
    + exfalso. destruct (H a (or_introl eq_refl)) as [E|E]; congruence.
Qed.

Example getStats_sample :
  getStats db_leads = {| totalLeads := 2; newLeads := 1; convertedLeads := 1 |}.
Proof. reflexivity. Qed.
